(** * Snackager storage layer: a shallow embedding and its verified properties

    The development follows the TypeScript sources of the storage abstraction
    ([external/storage.ts]), the configuration loader ([config.ts]), the
    descriptor cache ([utils/cacheSnackObj.ts]), the upload wrapper
    ([utils/uploadFile.ts]) and the redirect helper ([utils/addS3Redirect.ts]).

    - JavaScript strings are sequences of UTF-16 code units ([list N]).
    - [process.env] is a finite map from variable names to strings.
    - Asynchronous functions are state transformers over a [World] (the
      provider's state and the trace of SDK calls and log lines) that end in
      a normal completion or in a thrown value.
    - The provider SDKs ([aws-sdk], [@google-cloud/storage]), [json5],
      [Buffer], [parseInt] and [path.join] are parameters. *)

From Stdlib Require Import NArith ZArith Ascii String Lia.
From stdpp Require Import base strings list gmap.

Local Open Scope N_scope.

(** ** JavaScript strings *)

Module JsString.

(** A JavaScript string value: its UTF-16 code units, each below [2^16]. *)
Abbreviation jsstring := (list N).

(** An ASCII literal of the source as a JavaScript string. *)
Definition js (s : string) : jsstring := N_of_ascii <$> list_ascii_of_string s.

(** [s === t] on strings. *)
Definition str_eqb (s t : jsstring) : bool := bool_decide (s = t).

(** Truthiness of [string | undefined]: [undefined] and [''] are falsy. *)
Definition truthy (v : option jsstring) : bool :=
  match v with
  | Some (_ :: _) => true
  | _ => false
  end.

(** [v || d] for [v : string | undefined]. *)
Definition or_default (v : option jsstring) (d : jsstring) : jsstring :=
  match v with
  | Some (c :: s) => c :: s
  | _ => d
  end.

(** [v ?? d] for [v : string | undefined]. *)
Definition nullish_default (v : option jsstring) (d : jsstring) : jsstring :=
  match v with
  | Some s => s
  | None => d
  end.

(** [s.startsWith(p)]. *)
Fixpoint startsWith (s p : jsstring) {struct p} : bool :=
  match p, s with
  | [], _ => true
  | _ :: _, [] => false
  | a :: p', b :: s' => (a =? b) && startsWith s' p'
  end.

(** [s.endsWith(p)]. *)
Definition endsWith (s p : jsstring) : bool := startsWith (reverse s) (reverse p).

(** [s.includes(p)]. *)
Fixpoint includes (s p : jsstring) : bool :=
  startsWith s p ||
  match s with
  | [] => false
  | _ :: s' => includes s' p
  end.

(** *** [encodeURIComponent] (ECMAScript [Encode] with the empty extra set) *)

Definition in_range (lo hi c : N) : bool := (lo <=? c) && (c <=? hi).

(** The always-unescaped characters: ASCII letters, digits and [-_.!~*'()]. *)
Definition uriUnescaped (c : N) : bool :=
  in_range 65 90 c || in_range 97 122 c || in_range 48 57 c ||
  bool_decide (c ∈ [45; 95; 46; 33; 126; 42; 39; 40; 41]).

Definition isLeadingSurrogate (c : N) : bool := in_range 55296 56319 c.
Definition isTrailingSurrogate (c : N) : bool := in_range 56320 57343 c.

Definition UTF16SurrogatePairToCodePoint (lead trail : N) : N :=
  (lead - 55296) * 1024 + (trail - 56320) + 65536.

(** The octets of the UTF-8 encoding of a code point. *)
Definition utf8_octets (cp : N) : list N :=
  if cp <? 128 then [cp]
  else if cp <? 2048 then
    [N.lor 192 (N.shiftr cp 6); N.lor 128 (N.land cp 63)]
  else if cp <? 65536 then
    [N.lor 224 (N.shiftr cp 12);
     N.lor 128 (N.land (N.shiftr cp 6) 63);
     N.lor 128 (N.land cp 63)]
  else
    [N.lor 240 (N.shiftr cp 18);
     N.lor 128 (N.land (N.shiftr cp 12) 63);
     N.lor 128 (N.land (N.shiftr cp 6) 63);
     N.lor 128 (N.land cp 63)].

(** An uppercase hexadecimal digit. *)
Definition hexDigit (n : N) : N := if n <? 10 then 48 + n else 55 + n.

(** ["%XX"] for one octet. *)
Definition percentOctet (o : N) : jsstring := [37; hexDigit (o / 16); hexDigit (o mod 16)].

Definition percentEncode (cp : N) : jsstring := concat (percentOctet <$> utf8_octets cp).

(** [None] stands for the [URIError] raised on an unpaired surrogate. *)
Fixpoint Encode (s : jsstring) : option jsstring :=
  match s with
  | [] => Some []
  | c :: rest =>
      if uriUnescaped c then cons c <$> Encode rest
      else if isTrailingSurrogate c then None
      else if isLeadingSurrogate c then
        match rest with
        | d :: rest' =>
            if isTrailingSurrogate d
            then app (percentEncode (UTF16SurrogatePairToCodePoint c d)) <$> Encode rest'
            else None
        | [] => None
        end
      else app (percentEncode c) <$> Encode rest
  end.

(** [s.isWellFormed()]: no unpaired surrogate. *)
Fixpoint isWellFormed (s : jsstring) : bool :=
  match s with
  | [] => true
  | c :: rest =>
      if isTrailingSurrogate c then false
      else if isLeadingSurrogate c then
        match rest with
        | d :: rest' => isTrailingSurrogate d && isWellFormed rest'
        | [] => false
        end
      else isWellFormed rest
  end.

End JsString.
Export JsString.

(** ** Completions, thrown values and the world *)

Module Effects.

(** What a [throw] carries, as far as the code looks at it ([e.message]). *)
Inductive thrown : Type :=
| ErrorObj (name : string) (message : jsstring) (* [Error] and its subclasses *)
| NonError                                     (* a non-nullish value without [message] *)
| Nullish (is_null : bool).                    (* [null] or [undefined] *)

Inductive completion (A : Type) : Type :=
| Normal (a : A)
| Throw (e : thrown).
Arguments Normal {A} a.
Arguments Throw {A} e.

#[export] Instance completion_ret : MRet completion := fun A a => Normal a.
#[export] Instance completion_bind : MBind completion := fun A B k m =>
  match m with
  | Normal a => k a
  | Throw e => Throw e
  end.

(** Node's [Buffer]: a sequence of octets. *)
Inductive Buffer : Type := Buf (octets : list N).

(** The message V8 gives the [TypeError] of a property read on a nullish value. *)
Definition cannot_read (is_null : bool) (prop : string) : thrown :=
  ErrorObj "TypeError"
    (js "Cannot read properties of " ++ js (if is_null then "null" else "undefined") ++
     js " (reading '" ++ js prop ++ js "')").

(** [e.message] on a caught value. *)
Definition message_of (e : thrown) : completion (option jsstring) :=
  match e with
  | ErrorObj _ m => Normal (Some m)
  | NonError => Normal None
  | Nullish b => Throw (cannot_read b "message")
  end.

(** [ToString] of [string | undefined], as string concatenation applies it. *)
Definition to_display (v : option jsstring) : jsstring :=
  match v with
  | Some s => s
  | None => js "undefined"
  end.

(** *** Requests and events at the SDK boundary *)

Inductive S3Body : Type :=
| BodyBuffer (b : Buffer)
| BodyString (s : jsstring).

(** [S3.PutObjectRequest], the fields the code sets. *)
Record PutObjectRequest : Type := {
  Bucket : jsstring;
  Key : jsstring;
  Body : S3Body;
  ACL : option jsstring;
  CacheControl : option jsstring;
  ContentType : option jsstring;
  WebsiteRedirectLocation : option jsstring;
}.

(** [ManagedUpload.SendData]. *)
Record SendData : Type := {
  sd_Location : jsstring;
  sd_Bucket : jsstring;
  sd_Key : jsstring;
}.

(** [S3.PutObjectOutput], the provider's acknowledgment of a write. *)
Record PutObjectOutput : Type := {
  ETag : option jsstring;
  VersionId : option jsstring;
}.

(** [S3.GetObjectOutput]: [Body] is [undefined] or a buffer. *)
Record GetObjectOutput : Type := { go_Body : option Buffer }.

(** The options object given to [file.save]. *)
Record SaveOptions : Type := {
  metadata_cacheControl : jsstring;
  metadata_contentType : option jsstring;
  public : bool;
}.

Inductive LogLevel : Type := LInfo | LWarn | LError.

Inductive LogField : Type :=
| FString (s : jsstring)
| FError (e : thrown).

Record LogLine : Type := {
  level : LogLevel;
  fields : list (string * LogField);
  msg : jsstring;
}.

Inductive Event : Type :=
| Log (l : LogLine)
| S3Upload (r : PutObjectRequest)
| S3GetObject (bucket key : jsstring)
| S3DeleteObject (bucket key : jsstring)
| S3HeadObject (bucket key : jsstring)
| S3PutObject (r : PutObjectRequest)
| GcsSave (bucket key : jsstring) (body : Buffer) (o : SaveOptions)
| GcsMakePublic (bucket key : jsstring)
| GcsDownload (bucket key : jsstring)
| GcsDelete (bucket key : jsstring)
| GcsExists (bucket key : jsstring).

(** The world: every SDK call and log line so far, and the provider's state. *)
Record World (P : Type) : Type := {
  trace : list Event;
  provider : P;
}.
Arguments trace {P} w.
Arguments provider {P} w.
Arguments Build_World {P} trace provider.

(** An asynchronous computation, awaited to completion. *)
Definition M (P A : Type) : Type := World P -> completion A * World P.

#[export] Instance M_ret {P} : MRet (M P) := fun A a w => (Normal a, w).
#[export] Instance M_bind {P} : MBind (M P) := fun A B k m w =>
  match m w with
  | (Normal a, w') => k a w'
  | (Throw e, w') => (Throw e, w')
  end.

Definition throw {P A} (e : thrown) : M P A := fun w => (Throw e, w).

Definition lift {P A} (c : completion A) : M P A := fun w => (c, w).

(** [try { m } catch (e) { h e }]. *)
Definition try_catch {P A} (m : M P A) (h : thrown -> M P A) : M P A := fun w =>
  match m w with
  | (Normal a, w') => (Normal a, w')
  | (Throw e, w') => h e w'
  end.

Definition emit {P} (ev : Event) : M P unit := fun w =>
  (Normal tt, {| trace := trace w ++ [ev]; provider := provider w |}).

(** One awaited SDK call: it is recorded, then the provider answers. *)
Definition call {P A} (ev : Event) (op : P -> completion A * P) : M P A := fun w =>
  let '(r, p) := op (provider w) in
  (r, {| trace := trace w ++ [ev]; provider := p |}).

Definition logger (lvl : LogLevel) {P} (fs : list (string * LogField)) (m : string) : M P unit :=
  emit (Log {| level := lvl; fields := fs; msg := js m |}).

(** Unfolds the monad down to the pairs of completions and worlds. *)
Ltac unfold_M :=
  unfold try_catch, call, logger, emit, lift, throw,
    mbind, mret, M_bind, M_ret, completion_bind, completion_ret in *.

End Effects.
Export Effects.

(** ** The configuration loader ([config.ts]) *)

Module ConfigLoader.

(** [process]: the environment and the argument vector. *)
Record Process : Type := {
  process_env : gmap string jsstring;
  process_argv : list jsstring;
}.

Inductive StorageBackend : Type := gcs | s3.

#[export] Instance StorageBackend_eq_dec : EqDecision StorageBackend.
Proof. solve_decision. Defined.

Record AwsConfig : Type := {
  access_key : jsstring;
  secret_key : jsstring;
}.

Record S3Config : Type := {
  s3_bucket : jsstring;
  s3_imports_bucket : jsstring;
  region : jsstring;
}.

Record GcsConfig : Type := {
  projectId : jsstring;
  gcs_bucket : jsstring;
  gcs_imports_bucket : jsstring;
}.

(** The type [Config]; [Num] is the type of JavaScript numbers. *)
Record Config (Num : Type) : Type := {
  port : Num;
  registry : jsstring;
  tmpdir : jsstring;
  url : jsstring;
  storageBackend : StorageBackend;
  redis_url : jsstring;
  cfg_aws : option AwsConfig;
  cfg_s3 : option S3Config;
  cfg_gcs : option GcsConfig;
  cloudfront_url : jsstring;
  api_url : jsstring;
  sentry_dsn : option jsstring;
}.
Arguments port {Num} c.
Arguments registry {Num} c.
Arguments tmpdir {Num} c.
Arguments url {Num} c.
Arguments storageBackend {Num} c.
Arguments redis_url {Num} c.
Arguments cfg_aws {Num} c.
Arguments cfg_s3 {Num} c.
Arguments cfg_gcs {Num} c.
Arguments cloudfront_url {Num} c.
Arguments api_url {Num} c.
Arguments sentry_dsn {Num} c.

Section Loader.

(** Node built-ins the loader calls: [parseInt(s, 10)] and [path.join(a, b)]. *)
Context {Num : Type}.
Variable parseInt10 : jsstring -> Num.
Variable path_join : jsstring -> jsstring -> jsstring.

Variable process : Process.

(** [process.env.NODE_ENV === 'test' || process.argv[1].endsWith('cli.js')]:
    the second operand is evaluated only when the first is false, and reading
    [endsWith] off a missing [argv[1]] raises a [TypeError]. *)
Definition test_or_cli : completion bool :=
  if bool_decide (process_env process !! "NODE_ENV"%string = Some (js "test")) then Normal true
  else
    match process_argv process !! 1%nat with
    | Some script => Normal (endsWith script (js "cli.js"))
    | None => Throw (cannot_read false "endsWith")
    end.

Definition env (varName : string) (testValue : option jsstring) : completion jsstring :=
  match process_env process !! varName with
  | Some (c :: v) => Normal (c :: v)
  | _ =>
      t ← test_or_cli;
      if t : bool then Normal (nullish_default testValue (js "noop"))
      else Throw (ErrorObj "Error"
                    (js "environment variable " ++ js varName ++ js " isn't specified"))
  end.

Definition optionalEnv (varName : string) (defaultValue : option jsstring) : option jsstring :=
  match process_env process !! varName with
  | Some (c :: v) => Some (c :: v)
  | _ => defaultValue
  end.

(** [!!process.env.GCS_PROJECT_ID || !!process.env.USE_GCS]. *)
Definition useGCS : bool :=
  truthy (process_env process !! "GCS_PROJECT_ID"%string) ||
  truthy (process_env process !! "USE_GCS"%string).

(** The backend identity the loader writes into [config.storageBackend]. *)
Definition resolved_backend : StorageBackend := if useGCS then gcs else s3.

(** The module body: the object literal, then the backend block, then Sentry. *)
Definition load_config : completion (Config Num) :=
  let registry := js "https://registry.yarnpkg.com" in
  let port := parseInt10 (nullish_default (process_env process !! "PORT"%string) (js "3012")) in
  let tmpdir :=
    path_join (nullish_default (process_env process !! "TMPDIR"%string) (js "/tmp"))
              (js "snackager") in
  url ← env "IMPORT_SERVER_URL" None;
  let storageBackend := resolved_backend in
  redis ← env "REDIS_URL" None;
  cloudfront ← env "CLOUDFRONT_URL" None;
  api ← env "API_SERVER_URL" (Some (js "https://test.exp.host"));
  '(aws, s3c, gcsc) ←
    (if useGCS then
       projectId ← env "GCS_PROJECT_ID" None;
       bucket ← env "GCS_BUCKET" None;
       imports_bucket ← env "GCS_IMPORTS_BUCKET" None;
       mret (None, None,
             Some {| projectId := projectId; gcs_bucket := bucket;
                     gcs_imports_bucket := imports_bucket |})
     else
       access_key ← env "AWS_ACCESS_KEY_ID" None;
       secret_key ← env "AWS_SECRET_ACCESS_KEY" None;
       bucket ← env "S3_BUCKET" None;
       imports_bucket ← env "IMPORTS_S3_BUCKET" None;
       region ← env "S3_REGION" None;
       mret (Some {| access_key := access_key; secret_key := secret_key |},
             Some {| s3_bucket := bucket; s3_imports_bucket := imports_bucket;
                     region := region |},
             None));
  sentry ←
    (if negb (truthy (process_env process !! "DISABLE_INSTRUMENTATION"%string)) &&
        bool_decide (process_env process !! "NODE_ENV"%string = Some (js "production"))
     then dsn ← env "SENTRY_DSN" None; mret (Some dsn)
     else mret None);
  mret {| port := port; registry := registry; tmpdir := tmpdir; url := url;
          storageBackend := storageBackend; redis_url := redis;
          cfg_aws := aws; cfg_s3 := s3c; cfg_gcs := gcsc;
          cloudfront_url := cloudfront; api_url := api; sentry_dsn := sentry |}.

End Loader.

(** The two modes in which [env] falls back to a placeholder: the test
    environment, and an entry script whose path ends in [cli.js]. *)
Definition test_or_cli_mode (process : Process) : Prop :=
  process_env process !! "NODE_ENV"%string = Some (js "test") \/
  exists script, process_argv process !! 1%nat = Some script /\
                 endsWith script (js "cli.js") = true.

(** A variable is present with a non-empty value. *)
Definition set_nonempty (process : Process) (varName : string) : Prop :=
  exists v, process_env process !! varName = Some v /\ v <> [].

End ConfigLoader.
Export ConfigLoader.

(** ** The storage abstraction ([external/storage.ts]) *)

Module Storage.

Record UploadResult : Type := {
  location : jsstring;
  bucket : jsstring;
  key : jsstring;
}.

Record UploadOptions : Type := {
  contentType : option jsstring;
  cacheControl : option jsstring;
  acl : option jsstring;
}.

(** [options?.f] on [options : UploadOptions | undefined]. *)
Definition opt_field (f : UploadOptions -> option jsstring) (options : option UploadOptions)
  : option jsstring := options ≫= f.

(** The provider clients the two classes wrap. A GCS operation stands for
    [storage.bucket(bucket).file(key).op(...)], handle construction included. *)
Record S3SDK (P : Type) : Type := {
  s3_upload : PutObjectRequest -> P -> completion SendData * P;
  s3_getObject : jsstring -> jsstring -> P -> completion GetObjectOutput * P;
  s3_deleteObject : jsstring -> jsstring -> P -> completion unit * P;
  s3_headObject : jsstring -> jsstring -> P -> completion unit * P;
  s3_putObject : PutObjectRequest -> P -> completion PutObjectOutput * P;
}.
Arguments s3_upload {P} _.
Arguments s3_getObject {P} _.
Arguments s3_deleteObject {P} _.
Arguments s3_headObject {P} _.
Arguments s3_putObject {P} _.

Record GCSSDK (P : Type) : Type := {
  gcs_save : jsstring -> jsstring -> Buffer -> SaveOptions -> P -> completion unit * P;
  gcs_makePublic : jsstring -> jsstring -> P -> completion unit * P;
  gcs_download : jsstring -> jsstring -> P -> completion Buffer * P;
  gcs_delete : jsstring -> jsstring -> P -> completion unit * P;
  gcs_exists : jsstring -> jsstring -> P -> completion bool * P;
}.
Arguments gcs_save {P} _.
Arguments gcs_makePublic {P} _.
Arguments gcs_download {P} _.
Arguments gcs_delete {P} _.
Arguments gcs_exists {P} _.

(** The interface [StorageClient], with the [getPublicUrl] both classes add. *)
Record StorageClient (P : Type) : Type := {
  uploadFile : jsstring -> jsstring -> Buffer -> option UploadOptions -> M P (option UploadResult);
  getFile : jsstring -> jsstring -> M P (option Buffer);
  deleteFile : jsstring -> jsstring -> M P unit;
  fileExists : jsstring -> jsstring -> M P bool;
  getPublicUrl : jsstring -> jsstring -> completion jsstring;
}.
Arguments uploadFile {P} _.
Arguments getFile {P} _.
Arguments deleteFile {P} _.
Arguments fileExists {P} _.
Arguments getPublicUrl {P} _.

Definition encodeURIComponent (s : jsstring) : completion jsstring :=
  match Encode s with
  | Some e => Normal e
  | None => Throw (ErrorObj "URIError" (js "URI malformed"))
  end.

Section Clients.

Context {P Num : Type}.
Variable config : Config Num.
Variable aws_S3 : S3SDK P.
Variable gcs_Storage : GCSSDK P.

(** *** class [S3StorageClient] *)

Definition S3_upload_request (bucket key : jsstring) (body : Buffer)
    (options : option UploadOptions) : PutObjectRequest :=
  {| Bucket := bucket;
     Key := key;
     Body := BodyBuffer body;
     ACL := Some (or_default (opt_field acl options) (js "public-read"));
     CacheControl :=
       Some (or_default (opt_field cacheControl options) (js "public, max-age=31536000"));
     ContentType := opt_field contentType options;
     WebsiteRedirectLocation := None |}.

Definition S3_uploadFile (bucket key : jsstring) (body : Buffer)
    (options : option UploadOptions) : M P (option UploadResult) :=
  try_catch
    (let req := S3_upload_request bucket key body options in
     result ← call (S3Upload req) (s3_upload aws_S3 req);
     mret (Some {| location := sd_Location result;
                   bucket := sd_Bucket result;
                   key := sd_Key result |}))
    (fun error =>
       logger LError [("error", FError error); ("key", FString key); ("bucket", FString bucket)]
         "unable to upload file to S3";;
       mret None).

Definition S3_getFile (bucket key : jsstring) : M P (option Buffer) :=
  try_catch
    (result ← call (S3GetObject bucket key) (s3_getObject aws_S3 bucket key);
     mret (go_Body result))
    (fun error => mret None).

Definition S3_deleteFile (bucket key : jsstring) : M P unit :=
  try_catch
    (call (S3DeleteObject bucket key) (s3_deleteObject aws_S3 bucket key))
    (fun error => mret tt).

Definition S3_fileExists (bucket key : jsstring) : M P bool :=
  try_catch
    (call (S3HeadObject bucket key) (s3_headObject aws_S3 bucket key);; mret true)
    (fun _ => mret false).

Definition S3_getPublicUrl (bucket key : jsstring) : completion jsstring :=
  match cfg_s3 config with
  | None => Throw (ErrorObj "Error" (js "S3 configuration is required"))
  | Some s3c =>
      k ← encodeURIComponent key;
      mret (js "https://s3-" ++ region s3c ++ js ".amazonaws.com/" ++ bucket ++ js "/" ++ k)
  end.

Definition S3StorageClient : StorageClient P :=
  {| uploadFile := S3_uploadFile;
     getFile := S3_getFile;
     deleteFile := S3_deleteFile;
     fileExists := S3_fileExists;
     getPublicUrl := S3_getPublicUrl |}.

(** The constructor: it needs [config.aws] and [config.s3]. The call of
    [aws.config.update] changes no state the methods read. *)
Definition new_S3StorageClient : completion (StorageClient P) :=
  match cfg_aws config, cfg_s3 config with
  | Some _, Some _ => Normal S3StorageClient
  | _, _ =>
      Throw (ErrorObj "Error"
               (js "AWS/S3 configuration is required when using S3 storage backend"))
  end.

(** *** class [GCSStorageClient] *)

Definition GCS_save_options (options : option UploadOptions) : SaveOptions :=
  {| metadata_cacheControl :=
       or_default (opt_field cacheControl options) (js "public, max-age=31536000");
     metadata_contentType := opt_field contentType options;
     public := bool_decide (opt_field acl options = Some (js "public-read")) |}.

Definition GCS_uploadFile (bucket key : jsstring) (body : Buffer)
    (options : option UploadOptions) : M P (option UploadResult) :=
  try_catch
    (let o := GCS_save_options options in
     call (GcsSave bucket key body o) (gcs_save gcs_Storage bucket key body o);;
     (if bool_decide (opt_field acl options = Some (js "public-read"))
      then call (GcsMakePublic bucket key) (gcs_makePublic gcs_Storage bucket key)
      else mret tt);;
     mret (Some {| location := js "https://storage.googleapis.com/" ++ bucket ++ js "/" ++ key;
                   bucket := bucket;
                   key := key |}))
    (fun error =>
       logger LError [("error", FError error); ("key", FString key); ("bucket", FString bucket)]
         "unable to upload file to GCS";;
       mret None).

Definition GCS_getFile (bucket key : jsstring) : M P (option Buffer) :=
  try_catch
    (contents ← call (GcsDownload bucket key) (gcs_download gcs_Storage bucket key);
     mret (Some contents))
    (fun error => mret None).

Definition GCS_deleteFile (bucket key : jsstring) : M P unit :=
  try_catch
    (call (GcsDelete bucket key) (gcs_delete gcs_Storage bucket key))
    (fun error => mret tt).

Definition GCS_fileExists (bucket key : jsstring) : M P bool :=
  try_catch
    (call (GcsExists bucket key) (gcs_exists gcs_Storage bucket key))
    (fun _ => mret false).

Definition GCS_getPublicUrl (bucket key : jsstring) : completion jsstring :=
  k ← encodeURIComponent key;
  mret (js "https://storage.googleapis.com/" ++ bucket ++ js "/" ++ k).

Definition GCSStorageClient : StorageClient P :=
  {| uploadFile := GCS_uploadFile;
     getFile := GCS_getFile;
     deleteFile := GCS_deleteFile;
     fileExists := GCS_fileExists;
     getPublicUrl := GCS_getPublicUrl |}.

Definition new_GCSStorageClient : completion (StorageClient P) :=
  match cfg_gcs config with
  | Some _ => Normal GCSStorageClient
  | None =>
      Throw (ErrorObj "Error"
               (js "GCS configuration is required when using GCS storage backend"))
  end.

(** *** The module's exports: the one active client and the two bucket names *)

Record StorageModule : Type := {
  storageClient : StorageClient P;
  artifactsBucket : jsstring;
  importsBucket : jsstring;
}.

(** [config.gcs!.f] and [config.s3!.f]: a property read on [undefined] raises. *)
Definition non_null {A B} (o : option A) (f : A -> B) (prop : string) : completion B :=
  match o with
  | Some a => Normal (f a)
  | None => Throw (cannot_read false prop)
  end.

Definition storage_module : M P StorageModule :=
  client ←
    (if bool_decide (storageBackend config = gcs)
     then logger LInfo [] "Using Google Cloud Storage backend";; lift new_GCSStorageClient
     else logger LInfo [] "Using AWS S3 backend";; lift new_S3StorageClient);
  artifacts ←
    lift (if bool_decide (storageBackend config = gcs)
          then non_null (cfg_gcs config) gcs_bucket "bucket"
          else non_null (cfg_s3 config) s3_bucket "bucket");
  imports ←
    lift (if bool_decide (storageBackend config = gcs)
          then non_null (cfg_gcs config) gcs_imports_bucket "imports_bucket"
          else non_null (cfg_s3 config) s3_imports_bucket "imports_bucket");
  mret {| storageClient := client; artifactsBucket := artifacts; importsBucket := imports |}.

End Clients.

End Storage.
Export Storage.

(** ** The S3 handle of [external/aws.ts] *)

Module ExternalAws.

Section Aws.

Context {P Num : Type}.
Variable config : Config Num.
Variable aws_S3 : S3SDK P.

(** [createS3Client]: refused unless the backend is S3. *)
Definition createS3Client : completion (S3SDK P) :=
  if bool_decide (storageBackend config ≠ s3)
  then Throw (ErrorObj "Error" (js "S3 client requested but not using S3 storage backend"))
  else Normal aws_S3.

(** The export [s3]: a client on the S3 backend, the empty object [{}]
    ([None]) otherwise. *)
Definition s3_handle : option (S3SDK P) :=
  if bool_decide (storageBackend config = s3) then Some aws_S3 else None.

End Aws.

End ExternalAws.

(** ** The redirect helper ([utils/addS3Redirect.ts]) *)

Module AddS3Redirect.

Section Redirect.

Context {P Num : Type}.
Variable config : Config Num.
Variable aws_S3 : S3SDK P.

Definition redirect_request (s3c : S3Config) (key destination : jsstring) : PutObjectRequest :=
  {| Bucket := s3_bucket s3c;
     Key := key;
     Body := BodyString [];
     ACL := Some (js "public-read");
     CacheControl := Some (js "no-cache");
     ContentType := None;
     WebsiteRedirectLocation := Some (js "/" ++ destination) |}.

Definition addS3Redirect (key destination : jsstring) : M P (option PutObjectOutput) :=
  match (if bool_decide (storageBackend config ≠ s3) then None else cfg_s3 config) with
  | None =>
      logger LWarn [("key", FString key); ("destination", FString destination)]
        "S3 redirect not supported with current storage backend";;
      mret None
  | Some s3c =>
      try_catch
        (let req := redirect_request s3c key destination in
         match ExternalAws.s3_handle config aws_S3 with
         | Some client =>
             ack ← call (S3PutObject req) (s3_putObject client req);
             mret (Some ack)
         | None => throw (ErrorObj "TypeError" (js "s3.putObject is not a function"))
         end)
        (fun error =>
           logger LError [("error", FError error); ("key", FString key);
                          ("destination", FString destination);
                          ("bucket", FString (s3_bucket s3c))]
             "unable to add s3 redirect";;
           mret None)
  end.

End Redirect.

End AddS3Redirect.

(** ** The descriptor cache ([utils/cacheSnackObj.ts]) *)

Module CacheSnackObj.

Section Cache.

Context {P : Type}.

(** The descriptor type and the library calls made on it: [json5.parse],
    [json5.stringify] (which may answer [undefined]), [Buffer.from] on a
    string and [buffer.toString()]. *)
Context {GitSnackObj : Type}.
Variable json5_parse : jsstring -> completion GitSnackObj.
Variable json5_stringify : GitSnackObj -> completion (option jsstring).
Variable Buffer_from_string : jsstring -> Buffer.
Variable Buffer_toString : Buffer -> jsstring.

(** The imports of [../external/storage]. *)
Variable storageClient : StorageClient P.
Variable importsBucket : jsstring.

(** [Buffer.from(v)] for [v : string | undefined]. *)
Definition Buffer_from (v : option jsstring) : completion Buffer :=
  match v with
  | Some s => Normal (Buffer_from_string s)
  | None =>
      Throw (ErrorObj "TypeError"
               (js "The first argument must be of type string or an instance of Buffer, ArrayBuffer, or Array or an Array-like Object. Received undefined"))
  end.

Definition getCachedObj (filename : jsstring) : M P (option GitSnackObj) :=
  try_catch
    (buffer ← getFile storageClient importsBucket filename;
     match buffer with
     | None => mret None
     | Some b => obj ← lift (json5_parse (Buffer_toString b)); mret (Some obj)
     end)
    (fun _ => mret None).

Definition cache_options : UploadOptions :=
  {| contentType := None;
     cacheControl := Some (js "public, max-age=31536000");
     acl := Some (js "public-read") |}.

(** The line [cacheObj] logs before it raises. *)
Definition cache_failure_line (cause : thrown) (filename : jsstring) : Event :=
  Log {| level := LError;
         fields := [("e"%string, FError cause); ("filename"%string, FString filename);
                    ("bucket"%string, FString importsBucket)];
         msg := js "unable to upload file to storage" |}.

Definition cacheObj (snackObj : GitSnackObj) (filename : jsstring) : M P unit :=
  try_catch
    (text ← lift (json5_stringify snackObj);
     body ← lift (Buffer_from text);
     result ← uploadFile storageClient importsBucket filename body (Some cache_options);
     match result with
     | None => throw (ErrorObj "Error" (js "Failed to upload file"))
     | Some _ => mret tt
     end)
    (fun e =>
       emit (cache_failure_line e filename);;
       m ← lift (message_of e);
       throw (ErrorObj "Error" (js "CacheObj failure: " ++ to_display m))).

Definition removeFromCache (filename : jsstring) : M P unit :=
  try_catch
    (deleteFile storageClient importsBucket filename)
    (fun _ => mret tt).

End Cache.

End CacheSnackObj.

(** ** The upload wrapper ([utils/uploadFile.ts]) *)

Module UploadFileUtil.

Section Upload.

Context {P : Type}.
Variable storageClient : StorageClient P.
Variable artifactsBucket : jsstring.

Definition uploadFile (key : jsstring) (body : Buffer) : M P (option UploadResult) :=
  Storage.uploadFile storageClient artifactsBucket key body
    (Some {| contentType := None;
             cacheControl := Some (js "public, max-age=31536000");
             acl := Some (js "public-read") |}).

End Upload.

End UploadFileUtil.

(** ** Concrete providers and libraries for running the model *)

Module InMemory.

(** A bucket store: the object held at each (bucket, key). *)
Abbreviation Store := (gmap (list N * list N) Buffer).

Definition body_buffer (b : S3Body) : Buffer :=
  match b with
  | BodyBuffer buf => buf
  | BodyString s => Buf s
  end.

Definition not_found : thrown := ErrorObj "NoSuchKey" (js "The specified key does not exist.").

(** An S3 endpoint that keeps objects in memory and echoes bucket and key. *)
Definition memory_S3 : S3SDK Store :=
  {| s3_upload := fun req st =>
       (Normal {| sd_Location := js "https://" ++ Bucket req ++ js ".s3.amazonaws.com/" ++ Key req;
                  sd_Bucket := Bucket req;
                  sd_Key := Key req |},
        <[(Bucket req, Key req) := body_buffer (Body req)]> st);
     s3_getObject := fun b k st =>
       match st !! (b, k) with
       | Some buf => (Normal {| go_Body := Some buf |}, st)
       | None => (Throw not_found, st)
       end;
     s3_deleteObject := fun b k st => (Normal tt, delete (b, k) st);
     s3_headObject := fun b k st =>
       match st !! (b, k) with
       | Some _ => (Normal tt, st)
       | None => (Throw not_found, st)
       end;
     s3_putObject := fun req st =>
       (Normal {| ETag := Some (js "etag"); VersionId := None |},
        <[(Bucket req, Key req) := body_buffer (Body req)]> st) |}.

(** An S3-compatible endpoint that files every object under a [stored/]
    prefix and reports the key it used. *)
Definition prefixing_S3 : S3SDK Store :=
  {| s3_upload := fun req st =>
       (Normal {| sd_Location := js "https://s3.example/" ++ Bucket req ++ js "/stored/" ++ Key req;
                  sd_Bucket := Bucket req;
                  sd_Key := js "stored/" ++ Key req |},
        <[(Bucket req, js "stored/" ++ Key req) := body_buffer (Body req)]> st);
     s3_getObject := s3_getObject memory_S3;
     s3_deleteObject := s3_deleteObject memory_S3;
     s3_headObject := s3_headObject memory_S3;
     s3_putObject := s3_putObject memory_S3 |}.

Definition timeout : thrown := ErrorObj "NetworkingError" (js "connect ETIMEDOUT").

(** Providers that are down: every call is rejected. *)
Definition failing_S3 : S3SDK unit :=
  {| s3_upload := fun _ st => (Throw timeout, st);
     s3_getObject := fun _ _ st => (Throw timeout, st);
     s3_deleteObject := fun _ _ st => (Throw timeout, st);
     s3_headObject := fun _ _ st => (Throw timeout, st);
     s3_putObject := fun _ st => (Throw timeout, st) |}.

Definition failing_GCS : GCSSDK unit :=
  {| gcs_save := fun _ _ _ _ st => (Throw timeout, st);
     gcs_makePublic := fun _ _ st => (Throw timeout, st);
     gcs_download := fun _ _ st => (Throw timeout, st);
     gcs_delete := fun _ _ st => (Throw timeout, st);
     gcs_exists := fun _ _ st => (Throw timeout, st) |}.

(** A GCS endpoint that keeps objects in memory. *)
Definition memory_GCS : GCSSDK Store :=
  {| gcs_save := fun b k body _ st => (Normal tt, <[(b, k) := body]> st);
     gcs_makePublic := fun b k st =>
       match st !! (b, k) with
       | Some _ => (Normal tt, st)
       | None => (Throw not_found, st)
       end;
     gcs_download := fun b k st =>
       match st !! (b, k) with
       | Some buf => (Normal buf, st)
       | None => (Throw not_found, st)
       end;
     gcs_delete := fun b k st => (Normal tt, delete (b, k) st);
     gcs_exists := fun b k st => (Normal (bool_decide (is_Some (st !! (b, k)))), st) |}.

(** A storage client whose methods are all rejected. *)
Definition rejecting_client : StorageClient unit :=
  {| uploadFile := fun _ _ _ _ => throw timeout;
     getFile := fun _ _ => throw timeout;
     deleteFile := fun _ _ => throw timeout;
     fileExists := fun _ _ => throw timeout;
     getPublicUrl := fun _ _ => Throw timeout |}.

(** [Buffer.from(s)]: the UTF-8 octets of [s], an unpaired surrogate giving
    the octets of U+FFFD. *)
Fixpoint utf8_encode (s : jsstring) : list N :=
  match s with
  | [] => []
  | c :: rest =>
      if isLeadingSurrogate c then
        match rest with
        | d :: rest' =>
            if isTrailingSurrogate d
            then utf8_octets (UTF16SurrogatePairToCodePoint c d) ++ utf8_encode rest'
            else [239; 191; 189] ++ utf8_encode rest
        | [] => [239; 191; 189]
        end
      else if isTrailingSurrogate c then [239; 191; 189] ++ utf8_encode rest
      else utf8_octets c ++ utf8_encode rest
  end.

Definition Buffer_from_string (s : jsstring) : Buffer := Buf (utf8_encode s).

(** [buffer.toString()] on ASCII content; any other octet reads as U+FFFD. *)
Definition ascii_toString (b : Buffer) : jsstring :=
  match b with
  | Buf octets => (fun o => if o <? 128 then o else 65533) <$> octets
  end.

(** The atoms of JSON5, enough to run the cache on a concrete descriptor. *)
Inductive Atom : Type := ANull | ABool (b : bool).

Definition atom_stringify (a : Atom) : completion (option jsstring) :=
  Normal (Some (match a with
                | ANull => js "null"
                | ABool true => js "true"
                | ABool false => js "false"
                end)).

Definition atom_parse (text : jsstring) : completion Atom :=
  if str_eqb text (js "null") then Normal ANull
  else if str_eqb text (js "true") then Normal (ABool true)
  else if str_eqb text (js "false") then Normal (ABool false)
  else Throw (ErrorObj "SyntaxError" (js "JSON5: invalid character")).

(** A process as the test runner starts it, and one started in production
    with the S3 variables missing. *)
Definition test_process : Process :=
  {| process_env := {[ "NODE_ENV"%string := js "test" ]};
     process_argv := [js "/usr/bin/node"; js "/app/node_modules/.bin/jest"] |}.

Definition cli_process : Process :=
  {| process_env := ∅;
     process_argv := [js "/usr/bin/node"; js "/app/build/cli.js"] |}.

Definition s3_config : Config nat :=
  {| port := 3012%nat;
     registry := js "https://registry.yarnpkg.com";
     tmpdir := js "/tmp/snackager";
     url := js "https://snackager.example";
     storageBackend := s3;
     redis_url := js "redis://localhost";
     cfg_aws := Some {| access_key := js "AK"; secret_key := js "SK" |};
     cfg_s3 := Some {| s3_bucket := js "artifacts"; s3_imports_bucket := js "imports";
                       region := js "us-west-1" |};
     cfg_gcs := None;
     cloudfront_url := js "https://cdn.example";
     api_url := js "https://test.exp.host";
     sentry_dsn := None |}.

Definition gcs_config : Config nat :=
  {| port := 3012%nat;
     registry := js "https://registry.yarnpkg.com";
     tmpdir := js "/tmp/snackager";
     url := js "https://snackager.example";
     storageBackend := gcs;
     redis_url := js "redis://localhost";
     cfg_aws := None;
     cfg_s3 := None;
     cfg_gcs := Some {| projectId := js "proj"; gcs_bucket := js "artifacts";
                        gcs_imports_bucket := js "imports" |};
     cloudfront_url := js "https://cdn.example";
     api_url := js "https://test.exp.host";
     sentry_dsn := None |}.

(** A process whose [GCS_PROJECT_ID] is set, to the empty string. *)
Definition empty_project_process : Process :=
  {| process_env := {[ "GCS_PROJECT_ID"%string := [] ]};
     process_argv := [js "/usr/bin/node"; js "/app/build/index.js"] |}.

(** A production process with every S3 variable and an unrelated one. *)
Definition s3_process : Process :=
  {| process_env :=
       list_to_map
         [("NODE_ENV"%string, js "production");
          ("DISABLE_INSTRUMENTATION"%string, js "1");
          ("IMPORT_SERVER_URL"%string, js "https://snackager.example");
          ("REDIS_URL"%string, js "redis://localhost");
          ("CLOUDFRONT_URL"%string, js "https://cdn.example");
          ("API_SERVER_URL"%string, js "https://test.exp.host");
          ("AWS_ACCESS_KEY_ID"%string, js "AK");
          ("AWS_SECRET_ACCESS_KEY"%string, js "SK");
          ("S3_BUCKET"%string, js "artifacts");
          ("IMPORTS_S3_BUCKET"%string, js "imports");
          ("S3_REGION"%string, js "us-west-1")];
     process_argv := [js "/usr/bin/node"; js "/app/build/index.js"] |}.

(** A production process on the GCS backend. *)
Definition gcs_process : Process :=
  {| process_env :=
       list_to_map
         [("NODE_ENV"%string, js "production");
          ("DISABLE_INSTRUMENTATION"%string, js "1");
          ("IMPORT_SERVER_URL"%string, js "https://snackager.example");
          ("REDIS_URL"%string, js "redis://localhost");
          ("CLOUDFRONT_URL"%string, js "https://cdn.example");
          ("API_SERVER_URL"%string, js "https://test.exp.host");
          ("GCS_PROJECT_ID"%string, js "proj");
          ("GCS_BUCKET"%string, js "artifacts");
          ("GCS_IMPORTS_BUCKET"%string, js "imports")];
     process_argv := [js "/usr/bin/node"; js "/app/build/index.js"] |}.

Definition with_env (varName : string) (v : jsstring) (p : Process) : Process :=
  {| process_env := <[varName := v]> (process_env p); process_argv := process_argv p |}.

Definition empty_world {P} (p : P) : World P := {| trace := []; provider := p |}.

End InMemory.

Export InMemory.

(** ** Provider laws and further scenarios *)

Module Scenarios.

Section ProviderLaws.

Context {P : Type}.

(** On this S3 endpoint an object that was uploaded is the object read back
    and is found by a metadata probe. *)
Definition S3_read_after_write (sdk : S3SDK P) : Prop :=
  forall req body p data p1,
    Body req = BodyBuffer body ->
    s3_upload sdk req p = (Normal data, p1) ->
    (exists p2, s3_getObject sdk (Bucket req) (Key req) p1 =
                  (Normal {| go_Body := Some body |}, p2)) /\
    (exists p2, s3_headObject sdk (Bucket req) (Key req) p1 = (Normal (), p2)).

(** On this S3 endpoint a deleted object can be neither read nor probed. *)
Definition S3_gone_after_delete (sdk : S3SDK P) : Prop :=
  forall b k p p1,
    s3_deleteObject sdk b k p = (Normal (), p1) ->
    (exists e p2, s3_getObject sdk b k p1 = (Throw e, p2)) /\
    (exists e p2, s3_headObject sdk b k p1 = (Throw e, p2)).

(** On this GCS endpoint a saved object is the object downloaded, and making
    an object public does not change what is downloaded. *)
Definition GCS_read_after_write (sdk : GCSSDK P) : Prop :=
  (forall b k body o p p1,
     gcs_save sdk b k body o p = (Normal (), p1) ->
     exists p2, gcs_download sdk b k p1 = (Normal body, p2)) /\
  (forall b k p p1 body p2,
     gcs_makePublic sdk b k p = (Normal (), p1) ->
     gcs_download sdk b k p = (Normal body, p2) ->
     exists p3, gcs_download sdk b k p1 = (Normal body, p3)).

(** On this GCS endpoint a deleted object cannot be downloaded. *)
Definition GCS_gone_after_delete (sdk : GCSSDK P) : Prop :=
  forall b k p p1,
    gcs_delete sdk b k p = (Normal (), p1) ->
    exists e p2, gcs_download sdk b k p1 = (Throw e, p2).

End ProviderLaws.



(** A string whose code units all fit in sixteen bits, as every JavaScript
    string's do. *)
Definition sixteen_bit (s : jsstring) : Prop := Forall (fun c => c < 65536) s.

Definition too_large : thrown :=
  ErrorObj "EntityTooLarge" (js "Your proposed upload exceeds the maximum allowed size").

(** An S3 endpoint that keeps objects in memory and rejects every upload of
    more than four octets. *)
Definition size_limited_S3 : S3SDK Store :=
  {| s3_upload := fun req st =>
       match body_buffer (Body req) with
       | Buf octets =>
           if Nat.ltb 4 (length octets) then (Throw too_large, st)
           else s3_upload memory_S3 req st
       end;
     s3_getObject := s3_getObject memory_S3;
     s3_deleteObject := s3_deleteObject memory_S3;
     s3_headObject := s3_headObject memory_S3;
     s3_putObject := s3_putObject memory_S3 |}.

(** The value of a variable, set and non-empty. *)
Definition from_env (process : Process) (varName : string) (v : jsstring) : Prop :=
  process_env process !! varName = Some v /\ v <> [].

(** The error [env] raises for a variable. *)
Definition not_specified (varName : string) : thrown :=
  ErrorObj "Error" (js "environment variable " ++ js varName ++ js " isn't specified").

(** The variables the loader reads through [env], in the order it reads them. *)
Definition required_vars (process : Process) : list string :=
  ["IMPORT_SERVER_URL"; "REDIS_URL"; "CLOUDFRONT_URL"; "API_SERVER_URL"]%string ++
  (if useGCS process
   then ["GCS_PROJECT_ID"; "GCS_BUCKET"; "GCS_IMPORTS_BUCKET"]%string
   else ["AWS_ACCESS_KEY_ID"; "AWS_SECRET_ACCESS_KEY"; "S3_BUCKET"; "IMPORTS_S3_BUCKET";
         "S3_REGION"]%string) ++
  (if negb (truthy (process_env process !! "DISABLE_INSTRUMENTATION"%string)) &&
      bool_decide (process_env process !! "NODE_ENV"%string = Some (js "production"))
   then ["SENTRY_DSN"%string]
   else []).

(** The first required variable that is unset or empty. *)
Definition first_missing (process : Process) : option string :=
  find (fun v => negb (truthy (process_env process !! v))) (required_vars process).

(** A process started without a script ([node -e], the REPL). *)
Definition scriptless_process : Process :=
  {| process_env := ∅; process_argv := [js "/usr/bin/node"] |}.

(** The S3 production process with [USE_GCS] switched on and nothing else. *)
Definition use_gcs_only_process : Process := with_env "USE_GCS" (js "1") s3_process.

Definition without_env (varName : string) (p : Process) : Process :=
  {| process_env := delete varName (process_env p); process_argv := process_argv p |}.

(** A configuration built by hand: the S3 backend without its [s3] section. *)
Definition sectionless_config : Config nat :=
  {| port := 3012%nat;
     registry := js "https://registry.yarnpkg.com";
     tmpdir := js "/tmp/snackager";
     url := js "https://snackager.example";
     storageBackend := s3;
     redis_url := js "redis://localhost";
     cfg_aws := None;
     cfg_s3 := None;
     cfg_gcs := None;
     cloudfront_url := js "https://cdn.example";
     api_url := js "https://test.exp.host";
     sentry_dsn := None |}.

End Scenarios.

Export Scenarios.

Local Close Scope N_scope.

(** * Properties *)

(** ** Strings *)

Lemma startsWith_spec (s p : jsstring) :
  startsWith s p = true <-> exists post, s = p ++ post.
Proof.
  revert s. induction p as [|a p IH]; intros s; simpl.
  - split; [intros _; by exists s | done].
  - destruct s as [|b s].
    + split; [done | intros [post Hpost]; discriminate].
    + rewrite andb_true_iff, N.eqb_eq, IH. split.
      * intros [-> [post ->]]. by exists post.
      * intros [post Hpost]. injection Hpost as -> ->. eauto.
Qed.

Lemma includes_spec (s p : jsstring) :
  includes s p = true <-> exists pre post, s = pre ++ p ++ post.
Proof.
  induction s as [|c s IH]; simpl.
  - rewrite orb_false_r, startsWith_spec. split.
    + intros [post H]. by exists [], post.
    + intros (pre & post & H). symmetry in H.
      apply app_eq_nil in H as [-> H]. exists post. done.
  - rewrite orb_true_iff, startsWith_spec, IH. split.
    + intros [[post H] | (pre & post & H)].
      * by exists [], post.
      * exists (c :: pre), post. by rewrite H.
    + intros (pre & post & H). destruct pre as [|c' pre].
      * left. by exists post.
      * right. injection H as -> ->. by exists pre, post.
Qed.

Lemma endsWith_spec (s p : jsstring) :
  endsWith s p = true <-> exists pre, s = pre ++ p.
Proof.
  unfold endsWith. rewrite startsWith_spec. split.
  - intros [post H]. exists (reverse post).
    apply (inj reverse). by rewrite reverse_app, reverse_involutive.
  - intros [pre ->]. exists (reverse pre). by rewrite reverse_app.
Qed.

Lemma truthy_spec (v : option jsstring) :
  truthy v = true <-> exists s, v = Some s /\ s <> [].
Proof.
  destruct v as [[|c s]|]; simpl; split; try done.
  - intros (s & [= <-] & H). done.
  - intros _. by exists (c :: s).
  - intros (s & H & _). done.
Qed.

(** ** [encodeURIComponent] *)

Lemma percentOctet_length (o : N) : length (percentOctet o) = 3.
Proof. reflexivity. Qed.

Lemma percentEncode_length (cp : N) : 3 <= length (percentEncode cp).
Proof.
  unfold percentEncode, utf8_octets.
  repeat case_match; simpl; lia.
Qed.

(** Encoding never shortens a string, and lengthens it as soon as one code
    unit is escaped. *)
Lemma Encode_length (s e : jsstring) :
  Encode s = Some e ->
  length s <= length e /\
  (Exists (fun c => uriUnescaped c = false) s -> length s < length e).
Proof.
  remember (length s) as n eqn:Hn. revert s e Hn.
  induction n as [n IH] using lt_wf_ind. intros s e Hn He.
  destruct s as [|c rest]; simpl in *.
  - injection He as <-. split; [simpl; lia | intros H; inversion H].
  - destruct (uriUnescaped c) eqn:Hc.
    + destruct (Encode rest) as [e'|] eqn:Hr; [|done]. injection He as <-.
      destruct (IH (length rest) ltac:(lia) rest e' eq_refl Hr) as [Hle Hlt].
      split; [simpl; lia|]. intros Hex. apply Exists_cons in Hex as [Hex|Hex].
      * congruence.
      * specialize (Hlt Hex). simpl; lia.
    + destruct (isTrailingSurrogate c); [done|].
      destruct (isLeadingSurrogate c).
      * destruct rest as [|d rest']; [done|].
        destruct (isTrailingSurrogate d); [|done].
        destruct (Encode rest') as [e'|] eqn:Hr; [|done]. injection He as <-.
        destruct (IH (length rest') ltac:(subst n; simpl; lia) rest' e' eq_refl Hr) as [Hle _].
        pose proof (percentEncode_length (UTF16SurrogatePairToCodePoint c d)).
        rewrite length_app. subst n. cbn [length]. split; [lia | intros _; lia].
      * destruct (Encode rest) as [e'|] eqn:Hr; [|done]. injection He as <-.
        destruct (IH (length rest) ltac:(lia) rest e' eq_refl Hr) as [Hle _].
        pose proof (percentEncode_length c).
        rewrite length_app. subst n. cbn [length]. split; [lia | intros _; lia].
Qed.

Lemma Encode_changes (s e : jsstring) (c : N) :
  Encode s = Some e -> c ∈ s -> uriUnescaped c = false -> e <> s.
Proof.
  intros He Hin Hc ->.
  apply Encode_length in He as [_ Hlt].
  assert (length s < length s); [|lia].
  apply Hlt, Exists_exists. eauto.
Qed.

(** A string of unescaped characters is its own encoding. *)
Lemma Encode_unescaped (s : jsstring) :
  Forall (fun c => uriUnescaped c = true) s -> Encode s = Some s.
Proof.
  induction 1 as [|c s Hc _ IH]; simpl; [done|]. by rewrite Hc, IH.
Qed.

Lemma uriUnescaped_not_surrogate (c : N) :
  uriUnescaped c = true -> isTrailingSurrogate c = false /\ isLeadingSurrogate c = false.
Proof.
  unfold uriUnescaped, isTrailingSurrogate, isLeadingSurrogate, in_range.
  rewrite !orb_true_iff, !andb_true_iff, !andb_false_iff, !N.leb_le, !N.leb_gt,
    bool_decide_eq_true, !elem_of_cons, elem_of_nil.
  lia.
Qed.

(** [encodeURIComponent] returns exactly on the well-formed strings. *)
Lemma Encode_is_Some (s : jsstring) : is_Some (Encode s) <-> isWellFormed s = true.
Proof.
  remember (length s) as n eqn:Hn. revert s Hn.
  induction n as [n IH] using lt_wf_ind. intros s Hn.
  destruct s as [|c rest]; [by split|]. cbn [Encode isWellFormed].
  destruct (uriUnescaped c) eqn:Hc.
  - apply uriUnescaped_not_surrogate in Hc as [-> ->].
    rewrite fmap_is_Some. apply (IH (length rest)); [subst n; simpl; lia | done].
  - destruct (isTrailingSurrogate c); [split; [by intros [? ?] | done]|].
    destruct (isLeadingSurrogate c).
    + destruct rest as [|d rest']; [split; [by intros [? ?] | done]|].
      destruct (isTrailingSurrogate d); [|split; [by intros [? ?] | done]].
      rewrite fmap_is_Some. apply (IH (length rest')); [subst n; simpl; lia | done].
    + rewrite fmap_is_Some. apply (IH (length rest)); [subst n; simpl; lia | done].
Qed.

Example Encode_example : Encode (js "a b.js") = Some (js "a%20b.js").
Proof. vm_compute. reflexivity. Qed.

Example Encode_utf8_example :
  Encode [233; 8364; 55357; 56832; 47]%N = Some (js "%C3%A9%E2%82%AC%F0%9F%98%80%2F").
Proof. vm_compute. reflexivity. Qed.

Example Encode_lone_surrogate : Encode [97; 55357]%N = None.
Proof. vm_compute. reflexivity. Qed.

(** ** Public URLs *)

(** C5. With the S3 section of the configuration present, the S3 client's
    public URL of every bucket and key is
    [https://s3-<region>.amazonaws.com/<bucket>/<percent-encoded key>] and the
    GCS client's is [https://storage.googleapis.com/<bucket>/<percent-encoded key>],
    the key encoded by [encodeURIComponent] (which raises [URIError] on a key
    with an unpaired surrogate, and then so does the method). For region
    [us-west-1], bucket [b] and key [a b.js] these are
    [https://s3-us-west-1.amazonaws.com/b/a%20b.js] and
    [https://storage.googleapis.com/b/a%20b.js]. *)
Theorem C5_public_url {Num} (config : Config Num) (s3c : S3Config) (bucket key : jsstring) :
  cfg_s3 config = Some s3c ->
  S3_getPublicUrl config bucket key =
    match Encode key with
    | Some enc =>
        Normal (js "https://s3-" ++ region s3c ++ js ".amazonaws.com/" ++ bucket ++ js "/" ++ enc)
    | None => Throw (ErrorObj "URIError" (js "URI malformed"))
    end /\
  GCS_getPublicUrl bucket key =
    match Encode key with
    | Some enc => Normal (js "https://storage.googleapis.com/" ++ bucket ++ js "/" ++ enc)
    | None => Throw (ErrorObj "URIError" (js "URI malformed"))
    end /\
  (region s3c = js "us-west-1" ->
   S3_getPublicUrl config (js "b") (js "a b.js") =
     Normal (js "https://s3-us-west-1.amazonaws.com/b/a%20b.js")) /\
  GCS_getPublicUrl (js "b") (js "a b.js") =
    Normal (js "https://storage.googleapis.com/b/a%20b.js").
Proof.
  intros Hs3. unfold S3_getPublicUrl, GCS_getPublicUrl, encodeURIComponent.
  rewrite Hs3. repeat split.
  - by destruct (Encode key).
  - by destruct (Encode key).
  - intros ->. reflexivity.
Qed.

Lemma C5_public_url_witness :
  S3_getPublicUrl s3_config (js "b") (js "a b.js") =
    Normal (js "https://s3-us-west-1.amazonaws.com/b/a%20b.js") /\
  GCS_getPublicUrl (js "b") (js "a b.js") =
    Normal (js "https://storage.googleapis.com/b/a%20b.js").
Proof.
  destruct (C5_public_url s3_config
              {| s3_bucket := js "artifacts"; s3_imports_bucket := js "imports";
                 region := js "us-west-1" |}
              (js "b") (js "a b.js") eq_refl) as (H1 & H2 & _ & _).
  split; [exact H1 | exact H2].
Defined.

(** C9. A successful GCS upload reports
    [https://storage.googleapis.com/<bucket>/<key>] with the key verbatim; when
    the key holds a character that [encodeURIComponent] escapes (a space, a
    slash, ...), [getPublicUrl] of the same bucket and key does not return
    that location. *)
Theorem C9_gcs_location_verbatim {P} (sdk : GCSSDK P) (bucket key : jsstring) (body : Buffer)
    (options : option UploadOptions) (w w' : World P) (r : UploadResult) :
  GCS_uploadFile sdk bucket key body options w = (Normal (Some r), w') ->
  location r = js "https://storage.googleapis.com/" ++ bucket ++ js "/" ++ key /\
  (forall c, c ∈ key -> uriUnescaped c = false ->
     GCS_getPublicUrl bucket key <> Normal (location r)).
Proof.
  intros Hup.
  assert (Hloc : location r = js "https://storage.googleapis.com/" ++ bucket ++ js "/" ++ key).
  { unfold GCS_uploadFile in Hup. unfold_M.
    destruct (gcs_save sdk _ _ _ _ _) as [[[]|e] p]; [|discriminate].
    destruct (bool_decide _).
    - destruct (gcs_makePublic sdk _ _ _) as [[[]|e] p']; [|discriminate].
      by injection Hup as <- _.
    - by injection Hup as <- _. }
  split; [exact Hloc|].
  intros c Hin Hc. rewrite Hloc. unfold GCS_getPublicUrl, encodeURIComponent.
  destruct (Encode key) as [enc|] eqn:He; [|discriminate].
  unfold_M. intros [= Heq].
  apply (Encode_changes _ _ _ He Hin Hc).
  apply app_inv_head in Heq. by injection Heq.
Qed.

Lemma C9_gcs_location_verbatim_witness :
  exists r w',
    GCS_uploadFile memory_GCS (js "b") (js "a b.js") (Buf []) None (empty_world ∅) =
      (Normal (Some r), w') /\
    location r = js "https://storage.googleapis.com/b/a b.js" /\
    GCS_getPublicUrl (js "b") (js "a b.js") <> Normal (location r).
Proof.
  eexists _, _. split; [reflexivity|].
  destruct (C9_gcs_location_verbatim memory_GCS (js "b") (js "a b.js") (Buf []) None
              (empty_world ∅) _ _ eq_refl) as [H1 H2].
  split; [exact H1|].
  apply (H2 32%N); [|reflexivity].
  apply list_elem_of_In. simpl. tauto.
Defined.

(** ** The configuration loader *)

Lemma test_or_cli_in_mode (p : Process) :
  test_or_cli_mode p -> test_or_cli p = Normal true.
Proof.
  intros [Htest | (script & Hargv & Hends)]; unfold test_or_cli.
  - by rewrite bool_decide_eq_true_2.
  - case_bool_decide; [done|]. by rewrite Hargv, Hends.
Qed.

(** In either mode [env] returns: the variable's value when it has a
    non-empty one, the placeholder otherwise. *)
Lemma env_in_mode (p : Process) (varName : string) (testValue : option jsstring) :
  test_or_cli_mode p ->
  env p varName testValue =
    Normal (if truthy (process_env p !! varName)
            then default [] (process_env p !! varName)
            else nullish_default testValue (js "noop")).
Proof.
  intros Hmode. unfold env. rewrite (test_or_cli_in_mode p Hmode).
  by destruct (process_env p !! varName) as [[|c v]|].
Qed.

(** Outside both modes a variable that is unset or empty makes [env] raise. *)
Lemma env_missing_raises (p : Process) (varName : string) (testValue : option jsstring) :
  truthy (process_env p !! varName) = false ->
  test_or_cli p <> Normal true ->
  exists e, env p varName testValue = Throw e.
Proof.
  intros Hv Hmode. unfold env.
  destruct (process_env p !! varName) as [[|c v]|]; try discriminate;
    destruct (test_or_cli p) as [[|]|e]; try done; unfold_M; eauto.
Qed.

Ltac step_env Hmode :=
  match goal with
  | |- context [env ?p ?v ?t] => rewrite (env_in_mode p v t Hmode); unfold_M
  end.

Lemma load_config_in_mode {Num} (parseInt10 : jsstring -> Num)
    (path_join : jsstring -> jsstring -> jsstring) (p : Process) :
  test_or_cli_mode p -> exists config, load_config parseInt10 path_join p = Normal config.
Proof.
  intros Hmode. unfold load_config. unfold_M.
  repeat step_env Hmode.
  destruct (useGCS p); repeat step_env Hmode;
    destruct (negb _ && _); repeat step_env Hmode; eauto.
Qed.

(** What a loaded configuration holds: the resolved backend, and the
    section of that backend. *)
Lemma load_config_inv {Num} (parseInt10 : jsstring -> Num)
    (path_join : jsstring -> jsstring -> jsstring) (p : Process) (config : Config Num) :
  load_config parseInt10 path_join p = Normal config ->
  storageBackend config = resolved_backend p /\
  (storageBackend config = s3 -> is_Some (cfg_s3 config) /\ is_Some (cfg_aws config)) /\
  (storageBackend config = gcs -> is_Some (cfg_gcs config)).
Proof.
  unfold load_config, resolved_backend. unfold_M. intros H.
  repeat match type of H with
         | context [env ?p ?v ?t] => destruct (env p v t); [|discriminate]
         end.
  destruct (useGCS p);
    repeat match type of H with
           | context [env ?p ?v ?t] => destruct (env p v t); [|discriminate]
           end;
    destruct (negb _ && _);
    repeat match type of H with
           | context [env ?p ?v ?t] => destruct (env p v t); [|discriminate]
           end;
    injection H as <-; simpl; repeat split; intros; try discriminate; eauto.
Qed.

Lemma resolved_backend_gcs (p : Process) :
  resolved_backend p = gcs <-> set_nonempty p "GCS_PROJECT_ID" \/ set_nonempty p "USE_GCS".
Proof.
  unfold resolved_backend, useGCS, set_nonempty.
  rewrite <- !truthy_spec, <- orb_true_iff.
  destruct (_ || _); split; try done.
Qed.

(** C4 fails as stated: with [GCS_PROJECT_ID] set to the empty string the
    variable is set, yet the resolved backend is [s3]. *)
Lemma C4_counterexample :
  is_Some (process_env empty_project_process !! "GCS_PROJECT_ID"%string) /\
  resolved_backend empty_project_process = s3 /\
  ~ (resolved_backend empty_project_process = gcs <->
     is_Some (process_env empty_project_process !! "GCS_PROJECT_ID"%string) \/
     is_Some (process_env empty_project_process !! "USE_GCS"%string)).
Proof.
  assert (Hset : is_Some (process_env empty_project_process !! "GCS_PROJECT_ID"%string)).
  { by exists []. }
  split; [exact Hset|]. split; [reflexivity|].
  intros [_ H]. specialize (H (or_introl Hset)). discriminate.
Qed.

(** C4 (amended). The resolved backend is [gcs] exactly when [GCS_PROJECT_ID]
    or [USE_GCS] is set to a non-empty value, and [s3] otherwise; two
    processes that agree on these two variables resolve to the same backend,
    whatever else their environments and arguments hold; and a loaded
    configuration carries the resolved backend. *)
Theorem C4_backend_selection (p : Process) :
  (resolved_backend p = gcs <->
     set_nonempty p "GCS_PROJECT_ID" \/ set_nonempty p "USE_GCS") /\
  (resolved_backend p = s3 <->
     ~ (set_nonempty p "GCS_PROJECT_ID" \/ set_nonempty p "USE_GCS")) /\
  (forall q : Process,
     process_env q !! "GCS_PROJECT_ID"%string = process_env p !! "GCS_PROJECT_ID"%string ->
     process_env q !! "USE_GCS"%string = process_env p !! "USE_GCS"%string ->
     resolved_backend q = resolved_backend p) /\
  (forall Num (parseInt10 : jsstring -> Num) path_join (config : Config Num),
     load_config parseInt10 path_join p = Normal config ->
     storageBackend config = resolved_backend p).
Proof.
  split; [apply resolved_backend_gcs|]. split; [|split].
  - rewrite <- resolved_backend_gcs. destruct (resolved_backend p); split; try done.
  - intros q H1 H2. unfold resolved_backend, useGCS. by rewrite H1, H2.
  - intros Num parseInt10 path_join config H.
    by apply load_config_inv in H as [H _].
Qed.

Lemma C4_backend_selection_witness :
  resolved_backend s3_process = s3 /\
  resolved_backend (with_env "USE_GCS" (js "1") s3_process) = gcs /\
  resolved_backend (with_env "TMPDIR" (js "/scratch") s3_process) = resolved_backend s3_process /\
  exists config : Config nat,
    load_config (fun _ => 3012) (fun a b => a ++ js "/" ++ b) s3_process = Normal config /\
    storageBackend config = s3.
Proof.
  destruct (C4_backend_selection s3_process) as (_ & _ & Hother & Hload).
  destruct (C4_backend_selection (with_env "USE_GCS" (js "1") s3_process)) as (Hgcs & _).
  split; [reflexivity|]. split; [|split].
  - apply Hgcs. right. exists (js "1"). split; [reflexivity | discriminate].
  - apply Hother; reflexivity.
  - eexists. split; [reflexivity|].
    exact (Hload nat (fun _ => 3012) (fun a b => a ++ js "/" ++ b) _ eq_refl).
Defined.

(** C10. When [NODE_ENV] is [test] or the entry script ends in [cli.js], a
    required variable that is unset resolves to the test value given for it,
    to [noop] when none is given, and loading the configuration returns a
    configuration: it raises only outside these two modes. *)
Theorem C10_env_fallback (p : Process) :
  test_or_cli_mode p ->
  (forall varName testValue,
     process_env p !! varName = None ->
     env p varName testValue =
       Normal (match testValue with Some t => t | None => js "noop" end)) /\
  (forall Num (parseInt10 : jsstring -> Num) path_join,
     exists config, load_config parseInt10 path_join p = Normal config).
Proof.
  intros Hmode. split.
  - intros varName testValue Hunset.
    rewrite (env_in_mode p varName testValue Hmode), Hunset. reflexivity.
  - intros Num parseInt10 path_join. by apply load_config_in_mode.
Qed.

Lemma C10_env_fallback_witness :
  env test_process "REDIS_URL" None = Normal (js "noop") /\
  env cli_process "API_SERVER_URL" (Some (js "https://test.exp.host")) =
    Normal (js "https://test.exp.host") /\
  exists config : Config nat,
    load_config (fun _ => 3012) (fun a b => a ++ js "/" ++ b) cli_process = Normal config.
Proof.
  assert (Htest : test_or_cli_mode test_process) by (left; reflexivity).
  assert (Hcli : test_or_cli_mode cli_process).
  { right. exists (js "/app/build/cli.js"). split; reflexivity. }
  destruct (C10_env_fallback test_process Htest) as [Henv _].
  destruct (C10_env_fallback cli_process Hcli) as [Henv' Hload].
  split; [exact (Henv "REDIS_URL"%string None eq_refl)|].
  split; [exact (Henv' "API_SERVER_URL"%string (Some (js "https://test.exp.host")) eq_refl)|].
  exact (Hload nat (fun _ => 3012) (fun a b => a ++ js "/" ++ b)).
Defined.

(** Startup fails only outside the two modes. *)
Lemma load_config_raises_outside_mode {Num} (parseInt10 : jsstring -> Num)
    (path_join : jsstring -> jsstring -> jsstring) (p : Process) (e : thrown) :
  load_config parseInt10 path_join p = Throw e -> ~ test_or_cli_mode p.
Proof.
  intros H Hmode.
  destruct (load_config_in_mode parseInt10 path_join p Hmode) as [config Hc]. congruence.
Qed.

(** Outside the two modes a missing [IMPORT_SERVER_URL] stops the loader. *)
Lemma load_config_missing_url_raises {Num} (parseInt10 : jsstring -> Num)
    (path_join : jsstring -> jsstring -> jsstring) (p : Process) :
  truthy (process_env p !! "IMPORT_SERVER_URL"%string) = false ->
  test_or_cli p <> Normal true ->
  exists e, load_config parseInt10 path_join p = Throw e.
Proof.
  intros Hv Hmode.
  destruct (env_missing_raises p "IMPORT_SERVER_URL" None Hv Hmode) as [e He].
  exists e. unfold load_config. rewrite He. reflexivity.
Qed.

(** ** The two storage clients *)

Lemma S3_uploadFile_run {P} (sdk : S3SDK P) (b k : jsstring) (body : Buffer)
    (options : option UploadOptions) (w : World P) :
  S3_uploadFile sdk b k body options w =
    let req := S3_upload_request b k body options in
    match s3_upload sdk req (provider w) with
    | (Normal data, p) =>
        (Normal (Some {| location := sd_Location data; bucket := sd_Bucket data;
                         key := sd_Key data |}),
         {| trace := trace w ++ [S3Upload req]; provider := p |})
    | (Throw e, p) =>
        (Normal None,
         {| trace := trace w ++
              [S3Upload req;
               Log {| level := LError;
                      fields := [("error"%string, FError e); ("key"%string, FString k);
                                 ("bucket"%string, FString b)];
                      msg := js "unable to upload file to S3" |}];
            provider := p |})
    end.
Proof.
  unfold S3_uploadFile. unfold_M. simpl.
  destruct (s3_upload sdk _ _) as [[data|e] p]; simpl; [done|].
  by rewrite <- app_assoc.
Qed.

Lemma GCS_uploadFile_run {P} (sdk : GCSSDK P) (b k : jsstring) (body : Buffer)
    (options : option UploadOptions) (w : World P) :
  GCS_uploadFile sdk b k body options w =
    let o := GCS_save_options options in
    let failed e :=
      Log {| level := LError;
             fields := [("error"%string, FError e); ("key"%string, FString k);
                        ("bucket"%string, FString b)];
             msg := js "unable to upload file to GCS" |} in
    let result :=
      Some {| location := js "https://storage.googleapis.com/" ++ b ++ js "/" ++ k;
              bucket := b; key := k |} in
    match gcs_save sdk b k body o (provider w) with
    | (Throw e, p) =>
        (Normal None, {| trace := trace w ++ [GcsSave b k body o; failed e]; provider := p |})
    | (Normal _, p) =>
        if bool_decide (opt_field acl options = Some (js "public-read")) then
          match gcs_makePublic sdk b k p with
          | (Normal _, p') =>
              (Normal result,
               {| trace := trace w ++ [GcsSave b k body o; GcsMakePublic b k]; provider := p' |})
          | (Throw e, p') =>
              (Normal None,
               {| trace := trace w ++ [GcsSave b k body o; GcsMakePublic b k; failed e];
                  provider := p' |})
          end
        else (Normal result, {| trace := trace w ++ [GcsSave b k body o]; provider := p |})
    end.
Proof.
  unfold GCS_uploadFile. unfold_M. simpl.
  destruct (gcs_save sdk _ _ _ _ _) as [[[]|e] p]; simpl.
  - destruct (bool_decide _); simpl; [|done].
    destruct (gcs_makePublic sdk _ _ _) as [[[]|e] p']; simpl;
      by rewrite <- ?app_assoc.
  - by rewrite <- app_assoc.
Qed.

(** Neither client's [uploadFile] raises: a provider failure is logged and
    answered with absent. *)
Lemma S3_uploadFile_returns {P} (sdk : S3SDK P) (b k : jsstring) (body : Buffer)
    (options : option UploadOptions) (w : World P) :
  exists r w', S3_uploadFile sdk b k body options w = (Normal r, w').
Proof.
  rewrite S3_uploadFile_run. cbv zeta.
  destruct (s3_upload sdk _ _) as [[data|e] p]; eauto.
Qed.

Lemma GCS_uploadFile_returns {P} (sdk : GCSSDK P) (b k : jsstring) (body : Buffer)
    (options : option UploadOptions) (w : World P) :
  exists r w', GCS_uploadFile sdk b k body options w = (Normal r, w').
Proof.
  rewrite GCS_uploadFile_run. cbv zeta.
  destruct (gcs_save sdk _ _ _ _ _) as [[[]|e] p]; [|eauto].
  destruct (bool_decide _); [|eauto].
  destruct (gcs_makePublic sdk _ _ _) as [[[]|e] p']; eauto.
Qed.

(** A constructed S3 client is the class over a configuration with its S3
    section; a constructed GCS client is the class. *)
Lemma new_S3StorageClient_inv {P Num} (config : Config Num) (sdk : S3SDK P)
    (client : StorageClient P) :
  new_S3StorageClient config sdk = Normal client ->
  client = S3StorageClient config sdk /\ is_Some (cfg_s3 config).
Proof.
  unfold new_S3StorageClient.
  destruct (cfg_aws config), (cfg_s3 config); intros [= <-]; eauto.
Qed.

Lemma new_GCSStorageClient_inv {P Num} (config : Config Num) (sdk : GCSSDK P)
    (client : StorageClient P) :
  new_GCSStorageClient config sdk = Normal client -> client = GCSStorageClient sdk.
Proof.
  unfold new_GCSStorageClient. by destruct (cfg_gcs config); intros [= <-].
Qed.

(** On the in-memory providers a read after a write returns the bytes
    written, on either client. *)
Lemma memory_S3_upload_then_get (b k : jsstring) (body : Buffer)
    (options : option UploadOptions) (w : World Store) :
  exists r w1 w2,
    S3_uploadFile memory_S3 b k body options w = (Normal (Some r), w1) /\
    S3_getFile memory_S3 b k w1 = (Normal (Some body), w2).
Proof.
  rewrite S3_uploadFile_run. cbn. eexists _, _, _. split; [reflexivity|].
  unfold S3_getFile. unfold_M. cbn. by rewrite lookup_insert_eq.
Qed.

Lemma memory_GCS_upload_then_get (b k : jsstring) (body : Buffer)
    (options : option UploadOptions) (w : World Store) :
  exists r w1 w2,
    GCS_uploadFile memory_GCS b k body options w = (Normal (Some r), w1) /\
    GCS_getFile memory_GCS b k w1 = (Normal (Some body), w2).
Proof.
  rewrite GCS_uploadFile_run. cbn.
  destruct (bool_decide _); cbn; rewrite ?lookup_insert_eq;
    eexists _, _, _; (split; [reflexivity|]);
    unfold GCS_getFile; unfold_M; cbn; by rewrite lookup_insert_eq.
Qed.

(** C1 fails as stated: an S3 upload whose options omit [acl] is sent with
    the ACL [public-read]. *)
Lemma C1_counterexample :
  let options := Some {| contentType := None; cacheControl := None; acl := None |} in
  opt_field acl options = None /\
  exists req r w',
    S3_uploadFile memory_S3 (js "b") (js "k") (Buf [1%N]) options (empty_world ∅) =
      (Normal (Some r), w') /\
    trace w' = [S3Upload req] /\
    ACL req = Some (js "public-read").
Proof.
  split; [reflexivity|].
  eexists _, _, _. split; [reflexivity|]. split; reflexivity.
Qed.

(** C1 (amended). When the options omit [acl], the GCS client saves the
    object with the public flag off and makes no [makePublic] call, while the
    S3 client sends the upload with the ACL [public-read], its default. On
    GCS, whatever the options, the public flag is on exactly for the value
    [public-read], and [makePublic] is called only for it. *)
Theorem C1_default_visibility {P} (s3sdk : S3SDK P) (gsdk : GCSSDK P) (b k : jsstring)
    (body : Buffer) (options : option UploadOptions) (w : World P) :
  opt_field acl options = None ->
  (exists o evs,
     trace (GCS_uploadFile gsdk b k body options w).2 = trace w ++ GcsSave b k body o :: evs /\
     public o = false /\
     forall b' k', GcsMakePublic b' k' ∉ evs) /\
  (exists req evs,
     trace (S3_uploadFile s3sdk b k body options w).2 = trace w ++ S3Upload req :: evs /\
     ACL req = Some (js "public-read")) /\
  (forall options',
     exists o evs,
       trace (GCS_uploadFile gsdk b k body options' w).2 = trace w ++ GcsSave b k body o :: evs /\
       (public o = true <-> opt_field acl options' = Some (js "public-read")) /\
       forall b' k', GcsMakePublic b' k' ∈ evs ->
                     opt_field acl options' = Some (js "public-read")).
Proof.
  intros Hacl. split; [|split].
  - rewrite GCS_uploadFile_run. cbv zeta. rewrite Hacl.
    rewrite bool_decide_eq_false_2 by discriminate.
    exists (GCS_save_options options).
    destruct (gcs_save gsdk _ _ _ _ _) as [[[]|e] p]; simpl.
    + exists []. repeat split.
      * unfold GCS_save_options. simpl. rewrite Hacl. by rewrite bool_decide_eq_false_2.
      * intros b' k' H. by apply elem_of_nil in H.
    + eexists [_]. repeat split.
      * unfold GCS_save_options. simpl. rewrite Hacl. by rewrite bool_decide_eq_false_2.
      * intros b' k' H. apply list_elem_of_singleton in H. discriminate.
  - rewrite S3_uploadFile_run. cbv zeta.
    exists (S3_upload_request b k body options).
    destruct (s3_upload s3sdk _ _) as [[data|e] p]; simpl.
    + exists []. split; [done|]. by rewrite Hacl.
    + eexists [_]. split; [done|]. by rewrite Hacl.
  - intros options'. rewrite GCS_uploadFile_run. cbv zeta.
    exists (GCS_save_options options'). simpl.
    destruct (gcs_save gsdk _ _ _ _ _) as [[[]|e] p]; simpl.
    + case_bool_decide as Hpub.
      * destruct (gcs_makePublic gsdk _ _ _) as [[[]|e] p']; simpl;
          eexists; (split; [reflexivity|]); split; done.
      * exists []. split; [done|]. split; [split; done|].
        intros b' k' H. by apply elem_of_nil in H.
    + eexists [_]. split; [done|]. split; [apply bool_decide_eq_true|].
      intros b' k' H. apply list_elem_of_singleton in H. discriminate.
Qed.

Lemma C1_default_visibility_witness :
  (exists o evs,
     trace (GCS_uploadFile memory_GCS (js "b") (js "k") (Buf [1%N]) None (empty_world ∅)).2 =
       GcsSave (js "b") (js "k") (Buf [1%N]) o :: evs /\
     public o = false /\
     forall b' k', GcsMakePublic b' k' ∉ evs) /\
  (exists req evs,
     trace (S3_uploadFile memory_S3 (js "b") (js "k") (Buf [1%N]) None (empty_world ∅)).2 =
       S3Upload req :: evs /\
     ACL req = Some (js "public-read")).
Proof.
  destruct (C1_default_visibility memory_S3 memory_GCS (js "b") (js "k") (Buf [1%N]) None
              (empty_world ∅) eq_refl) as (Hgcs & Hs3 & _).
  split; [exact Hgcs | exact Hs3].
Defined.

(** C3 fails as stated: the S3 client reports the key of the provider's
    answer, here [stored/k] for the key [k] the caller passed. *)
Lemma C3_counterexample :
  exists r w',
    S3_uploadFile prefixing_S3 (js "b") (js "k") (Buf []) None (empty_world ∅) =
      (Normal (Some r), w') /\
    key r = js "stored/k" /\
    key r <> js "k".
Proof.
  eexists _, _. split; [reflexivity|]. split; [reflexivity | discriminate].
Qed.

(** C3 (amended). A successful GCS upload returns the bucket and key the
    caller passed. A successful S3 upload returns the [Location], [Bucket]
    and [Key] of the provider's answer to the upload request, a request made
    for the caller's bucket and key; they equal the caller's bucket and key
    when the provider echoes the request. *)
Theorem C3_result_echo {P} (s3sdk : S3SDK P) (gsdk : GCSSDK P) (b k : jsstring)
    (body : Buffer) (options : option UploadOptions) (w w' : World P) (r : UploadResult) :
  (GCS_uploadFile gsdk b k body options w = (Normal (Some r), w') ->
   bucket r = b /\ key r = k) /\
  (S3_uploadFile s3sdk b k body options w = (Normal (Some r), w') ->
   exists req data p,
     Bucket req = b /\ Key req = k /\
     s3_upload s3sdk req (provider w) = (Normal data, p) /\
     r = {| location := sd_Location data; bucket := sd_Bucket data; key := sd_Key data |} /\
     (sd_Bucket data = Bucket req -> sd_Key data = Key req -> bucket r = b /\ key r = k)).
Proof.
  split.
  - rewrite GCS_uploadFile_run. cbv zeta.
    destruct (gcs_save gsdk _ _ _ _ _) as [[[]|e] p]; [|discriminate].
    destruct (bool_decide _).
    + destruct (gcs_makePublic gsdk _ _ _) as [[[]|e] p']; [|discriminate].
      by intros [= <- _].
    + by intros [= <- _].
  - rewrite S3_uploadFile_run. cbv zeta.
    destruct (s3_upload s3sdk _ _) as [[data|e] p] eqn:Hup; [|discriminate].
    intros [= <- _]. exists (S3_upload_request b k body options), data, p.
    repeat split; try done; simpl in *; congruence.
Qed.

Lemma C3_result_echo_witness :
  (exists r w',
     GCS_uploadFile memory_GCS (js "b") (js "a/k") (Buf []) None (empty_world ∅) =
       (Normal (Some r), w') /\
     bucket r = js "b" /\ key r = js "a/k") /\
  (exists r w',
     S3_uploadFile memory_S3 (js "b") (js "a/k") (Buf []) None (empty_world ∅) =
       (Normal (Some r), w') /\
     bucket r = js "b" /\ key r = js "a/k").
Proof.
  split; eexists _, _; (split; [reflexivity|]).
  - exact (proj1 (C3_result_echo memory_S3 memory_GCS (js "b") (js "a/k") (Buf []) None
                    (empty_world ∅) _ _) eq_refl).
  - destruct (proj2 (C3_result_echo memory_S3 memory_GCS (js "b") (js "a/k") (Buf []) None
                       (empty_world ∅) _ _) eq_refl)
      as (req & data & p & Hb & Hk & Hup & Hr & Hecho).
    injection Hup as <- _. exact (Hecho eq_refl eq_refl).
Defined.

(** ** The redirect helper *)

(** On the S3 backend the exported handle is the client. *)
Lemma s3_handle_on_s3 {P Num} (config : Config Num) (sdk : S3SDK P) :
  storageBackend config = s3 -> ExternalAws.s3_handle config sdk = Some sdk.
Proof. intros H. unfold ExternalAws.s3_handle. by rewrite bool_decide_eq_true_2. Qed.

(** C8. For a loaded configuration and every key and destination,
    [addS3Redirect] returns and never raises. Off the S3 backend it logs one
    warning, calls no provider and returns absent. On the S3 backend it makes
    one [putObject] call for the artifacts bucket at the key, with an empty
    body, the ACL [public-read], cache-control [no-cache] and the website
    redirect location [/<destination>]; it returns the provider's
    acknowledgment when the call succeeds, and logs an error and returns
    absent when the call is rejected. *)
Theorem C8_addS3Redirect {P Num} (parseInt10 : jsstring -> Num)
    (path_join : jsstring -> jsstring -> jsstring) (p : Process) (config : Config Num)
    (sdk : S3SDK P) (key destination : jsstring) (w : World P) :
  load_config parseInt10 path_join p = Normal config ->
  exists r w',
    AddS3Redirect.addS3Redirect config sdk key destination w = (Normal r, w') /\
    (storageBackend config <> s3 ->
     r = None /\
     provider w' = provider w /\
     trace w' = trace w ++
       [Log {| level := LWarn;
               fields := [("key"%string, FString key);
                          ("destination"%string, FString destination)];
               msg := js "S3 redirect not supported with current storage backend" |}]) /\
    (storageBackend config = s3 ->
     exists s3c, cfg_s3 config = Some s3c /\
       let req :=
         {| Bucket := s3_bucket s3c; Key := key; Body := BodyString [];
            ACL := Some (js "public-read"); CacheControl := Some (js "no-cache");
            ContentType := None;
            WebsiteRedirectLocation := Some (js "/" ++ destination) |} in
       match s3_putObject sdk req (provider w) with
       | (Normal ack, p') =>
           r = Some ack /\
           w' = {| trace := trace w ++ [S3PutObject req]; provider := p' |}
       | (Throw e, p') =>
           r = None /\
           provider w' = p' /\
           exists l, trace w' = trace w ++ [S3PutObject req; Log l] /\
                     level l = LError /\
                     fields l = [("error"%string, FError e); ("key"%string, FString key);
                                 ("destination"%string, FString destination);
                                 ("bucket"%string, FString (s3_bucket s3c))]
       end).
Proof.
  intros Hload. apply load_config_inv in Hload as (_ & Hs3 & _).
  unfold AddS3Redirect.addS3Redirect.
  case_bool_decide as Hb.
  - unfold_M. simpl. eexists _, _. split; [reflexivity|]. split; [done|]. done.
  - assert (Hb' : storageBackend config = s3) by (by destruct (storageBackend config)).
    destruct (Hs3 Hb') as [[s3c Hc] _]. rewrite Hc, (s3_handle_on_s3 _ _ Hb').
    unfold AddS3Redirect.redirect_request. unfold_M. simpl.
    destruct (s3_putObject sdk _ _) as [[ack|e] p'] eqn:Hput; simpl.
    + eexists _, _. split; [reflexivity|]. split; [done|].
      intros _. exists s3c. split; [done|]. simpl. by rewrite Hput.
    + eexists _, _. split; [reflexivity|]. split; [done|].
      intros _. exists s3c. split; [done|]. simpl. rewrite Hput.
      split; [done|]. split; [done|]. eexists.
      split; [by rewrite <- app_assoc|]. done.
Qed.

Lemma C8_addS3Redirect_witness :
  (exists ack w',
     AddS3Redirect.addS3Redirect s3_config memory_S3 (js "old") (js "new") (empty_world ∅) =
       (Normal (Some ack), w') /\
     trace w' =
       [S3PutObject {| Bucket := js "artifacts"; Key := js "old"; Body := BodyString [];
                       ACL := Some (js "public-read"); CacheControl := Some (js "no-cache");
                       ContentType := None;
                       WebsiteRedirectLocation := Some (js "/new") |}]) /\
  (exists l,
     AddS3Redirect.addS3Redirect gcs_config memory_S3 (js "old") (js "new") (empty_world ∅) =
       (Normal None, {| trace := [Log l]; provider := ∅ |}) /\
     level l = LWarn).
Proof.
  split.
  - destruct (C8_addS3Redirect (fun _ => 3012) (fun a b => a ++ js "/" ++ b) s3_process
                s3_config memory_S3 (js "old") (js "new") (empty_world ∅))
      as (r & w' & Hrun & _ & Hs3).
    + vm_compute. reflexivity.
    + destruct (Hs3 eq_refl) as (s3c & Hc & Hput).
      injection Hc as <-. simpl in Hput. destruct Hput as [-> ->].
      eexists _, _. split; [exact Hrun | reflexivity].
  - destruct (C8_addS3Redirect (fun _ => 3012) (fun a b => a ++ js "/" ++ b) gcs_process
                gcs_config memory_S3 (js "old") (js "new") (empty_world ∅))
      as (r & w' & Hrun & Hgcs & _).
    + vm_compute. reflexivity.
    + destruct Hgcs as (-> & Hp & Ht); [discriminate|].
      destruct w' as [tr pr]. simpl in Hp, Ht. subst tr pr.
      eexists. split; [exact Hrun | reflexivity].
Defined.

(** ** The descriptor cache *)

Section CacheProperties.

Context {P GitSnackObj : Type}.
Variable json5_parse : jsstring -> completion GitSnackObj.
Variable json5_stringify : GitSnackObj -> completion (option jsstring).
Variable Buffer_from_string : jsstring -> Buffer.
Variable Buffer_toString : Buffer -> jsstring.
Variable client : StorageClient P.
Variable importsBucket : jsstring.

Local Abbreviation getCachedObj :=
  (CacheSnackObj.getCachedObj json5_parse Buffer_toString client importsBucket).
Local Abbreviation cacheObj :=
  (CacheSnackObj.cacheObj json5_stringify Buffer_from_string client importsBucket).
Local Abbreviation cache_options := CacheSnackObj.cache_options.
Local Abbreviation cache_failure_line := (CacheSnackObj.cache_failure_line importsBucket).

(** C6. For every filename [getCachedObj] returns and never raises. When the
    client reports the object missing, when the read is rejected, and when
    the bytes read do not parse, the result is absent, the same in the three
    cases; nothing is logged and no further call is made. (When the bytes
    parse, the result is the parsed descriptor.) *)
Theorem C6_getCachedObj_absent (filename : jsstring) (w : World P) :
  exists r w',
    getCachedObj filename w = (Normal r, w') /\
    (forall w1, getFile client importsBucket filename w = (Normal None, w1) ->
                r = None /\ w' = w1) /\
    (forall e w1, getFile client importsBucket filename w = (Throw e, w1) ->
                  r = None /\ w' = w1) /\
    (forall b e w1, getFile client importsBucket filename w = (Normal (Some b), w1) ->
                    json5_parse (Buffer_toString b) = Throw e ->
                    r = None /\ w' = w1) /\
    (forall b obj w1, getFile client importsBucket filename w = (Normal (Some b), w1) ->
                      json5_parse (Buffer_toString b) = Normal obj ->
                      r = Some obj /\ w' = w1).
Proof.
  unfold CacheSnackObj.getCachedObj. unfold_M.
  destruct (getFile client importsBucket filename w) as [[[b|]|e] w1] eqn:Hget.
  - destruct (json5_parse (Buffer_toString b)) as [obj|e] eqn:Hparse;
      eexists _, _; (split; [reflexivity|]);
      repeat split; intros; simplify_eq; congruence.
  - eexists _, _. split; [reflexivity|]. repeat split; intros; simplify_eq; done.
  - eexists _, _. split; [reflexivity|]. repeat split; intros; simplify_eq; done.
Qed.

(** C2 (amended). When the write [cacheObj] makes, the client's [uploadFile]
    of the serialized descriptor, does not return a result (it is rejected,
    or returns absent), [cacheObj] raises; nothing is assumed of uploads of
    other bodies. After an absent result the raised error's message is
    [CacheObj failure: Failed to upload file]; after a rejection with an
    error of message [m] it is [CacheObj failure: m]. The filename is a field
    of the line logged before raising, it is not put into the message. *)
Theorem C2_cacheObj_raises (d : GitSnackObj) (filename : jsstring) (w : World P) :
  (forall text res w1,
     json5_stringify d = Normal (Some text) ->
     uploadFile client importsBucket filename (Buffer_from_string text)
       (Some cache_options) w <> (Normal (Some res), w1)) ->
  exists e w',
    cacheObj d filename w = (Throw e, w') /\
    (forall text w1,
       json5_stringify d = Normal (Some text) ->
       uploadFile client importsBucket filename (Buffer_from_string text)
         (Some cache_options) w = (Normal None, w1) ->
       e = ErrorObj "Error" (js "CacheObj failure: Failed to upload file") /\
       provider w' = provider w1 /\
       trace w' = trace w1 ++
         [cache_failure_line (ErrorObj "Error" (js "Failed to upload file")) filename]) /\
    (forall text name m w1,
       json5_stringify d = Normal (Some text) ->
       uploadFile client importsBucket filename (Buffer_from_string text)
         (Some cache_options) w = (Throw (ErrorObj name m), w1) ->
       e = ErrorObj "Error" (js "CacheObj failure: " ++ m) /\
       provider w' = provider w1 /\
       trace w' = trace w1 ++ [cache_failure_line (ErrorObj name m) filename]).
Proof.
  intros Hfail. unfold CacheSnackObj.cacheObj, CacheSnackObj.Buffer_from. unfold_M.
  destruct (json5_stringify d) as [[text|]|e0] eqn:Hstr.
  - destruct (uploadFile client importsBucket filename _ _ w) as [[[res|]|e1] w1] eqn:Hup.
    + exfalso. exact (Hfail text res w1 eq_refl Hup).
    + eexists _, _. split; [reflexivity|]. split.
      * intros text' w1' [= <-] Hup'. rewrite Hup in Hup'. injection Hup' as <-.
        repeat split; reflexivity.
      * intros text' name m w1' [= <-] Hup'. rewrite Hup in Hup'. discriminate.
    + destruct e1 as [name m| |is_null];
        (eexists _, _; split; [reflexivity|]; split;
         [ intros text' w1' [= <-] Hup'; rewrite Hup in Hup'; discriminate
         | intros text' name' m' w1' [= <-] Hup'; rewrite Hup in Hup' ]);
        try discriminate.
      injection Hup' as <- <- <-. repeat split; reflexivity.
  - eexists _, _. split; [reflexivity|]. split; intros; discriminate.
  - destruct e0 as [name m| |is_null];
      eexists _, _; (split; [reflexivity|]); split; intros; discriminate.
Qed.

(** C7. For a descriptor that [json5] serializes to a text from which it
    parses back, and a client whose write succeeds and whose next read
    returns the bytes written, [cacheObj] returns, and [getCachedObj] of the
    same filename then returns the descriptor. *)
Theorem C7_cache_roundtrip (d : GitSnackObj) (filename text : jsstring)
    (w w1 w2 : World P) (res : UploadResult) :
  json5_stringify d = Normal (Some text) ->
  json5_parse (Buffer_toString (Buffer_from_string text)) = Normal d ->
  uploadFile client importsBucket filename (Buffer_from_string text)
    (Some cache_options) w = (Normal (Some res), w1) ->
  getFile client importsBucket filename w1 = (Normal (Some (Buffer_from_string text)), w2) ->
  cacheObj d filename w = (Normal tt, w1) /\
  getCachedObj filename w1 = (Normal (Some d), w2).
Proof.
  intros Hstr Hparse Hup Hget. split.
  - unfold CacheSnackObj.cacheObj, CacheSnackObj.Buffer_from. unfold_M.
    by rewrite Hstr, Hup.
  - unfold CacheSnackObj.getCachedObj. unfold_M.
    by rewrite Hget, Hparse.
Qed.

End CacheProperties.

(** C2 fails as stated: when the upload returns absent, the message of the
    error [cacheObj] raises is [CacheObj failure: Failed to upload file], in
    which the filename [x.json] does not occur. *)
Lemma C2_counterexample :
  let client := S3StorageClient s3_config failing_S3 in
  (uploadFile client (js "imports") (js "x.json") (Buffer_from_string (js "true"))
     (Some CacheSnackObj.cache_options) (empty_world ())).1 = Normal None /\
  exists m w',
    CacheSnackObj.cacheObj atom_stringify Buffer_from_string client (js "imports")
      (ABool true) (js "x.json") (empty_world ()) = (Throw (ErrorObj "Error" m), w') /\
    m = js "CacheObj failure: Failed to upload file" /\
    ~ (exists pre post, m = pre ++ js "x.json" ++ post).
Proof.
  intros client. split; [reflexivity|].
  eexists _, _. split; [reflexivity|]. split; [reflexivity|].
  rewrite <- includes_spec. vm_compute. discriminate.
Qed.

Lemma C2_cacheObj_raises_witness :
  let limited := S3StorageClient s3_config size_limited_S3 in
  (CacheSnackObj.cacheObj atom_stringify Buffer_from_string limited (js "imports")
     (ABool true) (js "x.json") (empty_world ∅)).1 = Normal () /\
  (exists w',
     CacheSnackObj.cacheObj atom_stringify Buffer_from_string limited (js "imports")
       (ABool false) (js "x.json") (empty_world ∅) =
       (Throw (ErrorObj "Error" (js "CacheObj failure: Failed to upload file")), w')) /\
  (exists w',
     CacheSnackObj.cacheObj atom_stringify Buffer_from_string rejecting_client (js "imports")
       (ABool true) (js "x.json") (empty_world ()) =
       (Throw (ErrorObj "Error" (js "CacheObj failure: connect ETIMEDOUT")), w')).
Proof.
  intros limited. split; [reflexivity|]. split.
  - destruct (C2_cacheObj_raises atom_stringify Buffer_from_string limited
                (js "imports") (ABool false) (js "x.json") (empty_world ∅))
      as (e & w' & Hrun & Habsent & _).
    + intros text res w1 Hstr. injection Hstr as <-. vm_compute. discriminate.
    + destruct (Habsent (js "false") _ eq_refl eq_refl) as [-> _].
      exists w'. exact Hrun.
  - destruct (C2_cacheObj_raises atom_stringify Buffer_from_string rejecting_client
                (js "imports") (ABool true) (js "x.json") (empty_world ()))
      as (e & w' & Hrun & _ & Hrejected).
    + intros text res w1 Hstr. vm_compute. discriminate.
    + destruct (Hrejected (js "true") "NetworkingError"%string (js "connect ETIMEDOUT") _
                  eq_refl eq_refl) as [-> _].
      exists w'. exact Hrun.
Defined.

Lemma C6_getCachedObj_absent_witness :
  let corrupt : Store := {[ (js "imports", js "x.json") := Buf (js "{oops") ]} in
  let client := S3StorageClient s3_config memory_S3 in
  (CacheSnackObj.getCachedObj atom_parse ascii_toString client (js "imports") (js "x.json")
     (empty_world ∅)).1 = Normal None /\
  (CacheSnackObj.getCachedObj atom_parse ascii_toString rejecting_client (js "imports")
     (js "x.json") (empty_world ())).1 = Normal None /\
  (CacheSnackObj.getCachedObj atom_parse ascii_toString client (js "imports") (js "x.json")
     (empty_world corrupt)).1 = Normal None.
Proof.
  intros corrupt client. split; [|split].
  - destruct (C6_getCachedObj_absent atom_parse ascii_toString client (js "imports")
                (js "x.json") (empty_world ∅)) as (r & w' & Hrun & Hmissing & _).
    destruct (Hmissing _ eq_refl) as [-> _]. by rewrite Hrun.
  - destruct (C6_getCachedObj_absent atom_parse ascii_toString rejecting_client (js "imports")
                (js "x.json") (empty_world ())) as (r & w' & Hrun & _ & Hrejected & _).
    destruct (Hrejected _ _ eq_refl) as [-> _]. by rewrite Hrun.
  - destruct (C6_getCachedObj_absent atom_parse ascii_toString client (js "imports")
                (js "x.json") (empty_world corrupt)) as (r & w' & Hrun & _ & _ & Hcorrupt & _).
    destruct (Hcorrupt _ _ _ eq_refl eq_refl) as [-> _]. by rewrite Hrun.
Defined.

Lemma C7_cache_roundtrip_witness :
  let client := S3StorageClient s3_config memory_S3 in
  exists w1 w2,
    CacheSnackObj.cacheObj atom_stringify Buffer_from_string client (js "imports")
      (ABool true) (js "x.json") (empty_world ∅) = (Normal (), w1) /\
    CacheSnackObj.getCachedObj atom_parse ascii_toString client (js "imports") (js "x.json") w1 =
      (Normal (Some (ABool true)), w2).
Proof.
  intros client. eexists _, _.
  eapply (C7_cache_roundtrip atom_parse atom_stringify Buffer_from_string ascii_toString
            client (js "imports") (ABool true) (js "x.json") (js "true"));
    reflexivity.
Defined.

(** [removeFromCache] returns whatever the client's [deleteFile] does. *)
Lemma removeFromCache_returns {P} (client : StorageClient P) (importsBucket filename : jsstring)
    (w : World P) :
  exists w', CacheSnackObj.removeFromCache client importsBucket filename w = (Normal (), w').
Proof.
  unfold CacheSnackObj.removeFromCache. unfold_M.
  destruct (deleteFile client importsBucket filename w) as [[[]|e] w']; eauto.
Qed.

(** ** The facade *)

(** X20. For a loaded configuration the storage module initializes: it logs
    the backend, constructs the one client of the resolved backend and
    exports that backend's two bucket names. *)
Lemma storage_module_loaded {P Num} (parseInt10 : jsstring -> Num)
    (path_join : jsstring -> jsstring -> jsstring) (p : Process) (config : Config Num)
    (s3sdk : S3SDK P) (gsdk : GCSSDK P) (w : World P) :
  load_config parseInt10 path_join p = Normal config ->
  exists m l,
    storage_module config s3sdk gsdk w =
      (Normal m, {| trace := trace w ++ [Log l]; provider := provider w |}) /\
    level l = LInfo /\
    (resolved_backend p = gcs ->
     storageClient m = GCSStorageClient gsdk /\
     exists g, cfg_gcs config = Some g /\
               artifactsBucket m = gcs_bucket g /\ importsBucket m = gcs_imports_bucket g) /\
    (resolved_backend p = s3 ->
     storageClient m = S3StorageClient config s3sdk /\
     exists s, cfg_s3 config = Some s /\
               artifactsBucket m = s3_bucket s /\ importsBucket m = s3_imports_bucket s).
Proof.
  intros Hload. apply load_config_inv in Hload as (Hb & Hs3 & Hgcs).
  unfold storage_module, new_GCSStorageClient, new_S3StorageClient, non_null.
  rewrite <- Hb. destruct (storageBackend config).
  - destruct (Hgcs eq_refl) as [g Hg]. rewrite Hg.
    rewrite bool_decide_eq_true_2 by done. unfold_M. cbn.
    eexists _, _. split; [reflexivity|]. split; [done|]. split; [|done].
    intros _. split; [done|]. by exists g.
  - destruct (Hs3 eq_refl) as [[s Hs] [a Ha]]. rewrite Hs, Ha.
    rewrite bool_decide_eq_false_2 by done. unfold_M. cbn.
    eexists _, _. split; [reflexivity|]. split; [done|]. split; [done|].
    intros _. split; [done|]. by exists s.
Qed.

(** * Further properties of the storage clients *)

(** ** One provider call at a time *)

Lemma S3_getFile_run {P} (sdk : S3SDK P) (b k : jsstring) (w : World P) :
  S3_getFile sdk b k w =
    let '(c, p) := s3_getObject sdk b k (provider w) in
    (Normal (match c with Normal out => go_Body out | Throw _ => None end),
     {| trace := trace w ++ [S3GetObject b k]; provider := p |}).
Proof.
  unfold S3_getFile. unfold_M. cbn.
  by destruct (s3_getObject sdk b k (provider w)) as [[out|e] p].
Qed.

Lemma GCS_getFile_run {P} (sdk : GCSSDK P) (b k : jsstring) (w : World P) :
  GCS_getFile sdk b k w =
    let '(c, p) := gcs_download sdk b k (provider w) in
    (Normal (match c with Normal contents => Some contents | Throw _ => None end),
     {| trace := trace w ++ [GcsDownload b k]; provider := p |}).
Proof.
  unfold GCS_getFile. unfold_M. cbn.
  by destruct (gcs_download sdk b k (provider w)) as [[contents|e] p].
Qed.

Lemma S3_deleteFile_run {P} (sdk : S3SDK P) (b k : jsstring) (w : World P) :
  S3_deleteFile sdk b k w =
    (Normal (), {| trace := trace w ++ [S3DeleteObject b k];
                   provider := (s3_deleteObject sdk b k (provider w)).2 |}).
Proof.
  unfold S3_deleteFile. unfold_M. cbn.
  by destruct (s3_deleteObject sdk b k (provider w)) as [[[]|e] p].
Qed.

Lemma GCS_deleteFile_run {P} (sdk : GCSSDK P) (b k : jsstring) (w : World P) :
  GCS_deleteFile sdk b k w =
    (Normal (), {| trace := trace w ++ [GcsDelete b k];
                   provider := (gcs_delete sdk b k (provider w)).2 |}).
Proof.
  unfold GCS_deleteFile. unfold_M. cbn.
  by destruct (gcs_delete sdk b k (provider w)) as [[[]|e] p].
Qed.

Lemma S3_fileExists_run {P} (sdk : S3SDK P) (b k : jsstring) (w : World P) :
  S3_fileExists sdk b k w =
    let '(c, p) := s3_headObject sdk b k (provider w) in
    (Normal (match c with Normal _ => true | Throw _ => false end),
     {| trace := trace w ++ [S3HeadObject b k]; provider := p |}).
Proof.
  unfold S3_fileExists. unfold_M. cbn.
  by destruct (s3_headObject sdk b k (provider w)) as [[[]|e] p].
Qed.

Lemma GCS_fileExists_run {P} (sdk : GCSSDK P) (b k : jsstring) (w : World P) :
  GCS_fileExists sdk b k w =
    let '(c, p) := gcs_exists sdk b k (provider w) in
    (Normal (match c with Normal found => found | Throw _ => false end),
     {| trace := trace w ++ [GcsExists b k]; provider := p |}).
Proof.
  unfold GCS_fileExists. unfold_M. cbn.
  by destruct (gcs_exists sdk b k (provider w)) as [[found|e] p].
Qed.

(** ** Reads, deletes and probes swallow provider failures *)

(** X1. [getFile] of either client never raises: it makes one provider call,
    logs nothing, returns the object's bytes when the provider delivers them
    and absent when the provider rejects the call (or, on S3, answers without
    a body), so a missing object and a failed read look alike. *)
Theorem getFile_never_raises {P} (s3sdk : S3SDK P) (gsdk : GCSSDK P) (b k : jsstring)
    (w : World P) :
  (exists r p,
     S3_getFile s3sdk b k w =
       (Normal r, {| trace := trace w ++ [S3GetObject b k]; provider := p |}) /\
     (forall e p', s3_getObject s3sdk b k (provider w) = (Throw e, p') -> r = None) /\
     (forall out p', s3_getObject s3sdk b k (provider w) = (Normal out, p') ->
                     r = go_Body out)) /\
  (exists r p,
     GCS_getFile gsdk b k w =
       (Normal r, {| trace := trace w ++ [GcsDownload b k]; provider := p |}) /\
     (forall e p', gcs_download gsdk b k (provider w) = (Throw e, p') -> r = None) /\
     (forall contents p', gcs_download gsdk b k (provider w) = (Normal contents, p') ->
                          r = Some contents)).
Proof.
  split.
  - rewrite S3_getFile_run.
    destruct (s3_getObject s3sdk b k (provider w)) as [[out|e] p];
      eexists _, _; (split; [reflexivity|]); split; intros; simplify_eq; done.
  - rewrite GCS_getFile_run.
    destruct (gcs_download gsdk b k (provider w)) as [[contents|e] p];
      eexists _, _; (split; [reflexivity|]); split; intros; simplify_eq; done.
Qed.

(** X2. [deleteFile] of either client never raises and returns nothing, one
    provider call made and nothing logged, whether the provider deleted the
    object or rejected the call: the result does not tell the two apart. *)
Theorem deleteFile_never_raises {P} (s3sdk : S3SDK P) (gsdk : GCSSDK P) (b k : jsstring)
    (w : World P) :
  S3_deleteFile s3sdk b k w =
    (Normal (), {| trace := trace w ++ [S3DeleteObject b k];
                   provider := (s3_deleteObject s3sdk b k (provider w)).2 |}) /\
  GCS_deleteFile gsdk b k w =
    (Normal (), {| trace := trace w ++ [GcsDelete b k];
                   provider := (gcs_delete gsdk b k (provider w)).2 |}).
Proof. split; [apply S3_deleteFile_run | apply GCS_deleteFile_run]. Qed.

(** X3. [fileExists] of either client never raises. On S3 it is true exactly
    when the metadata probe is accepted; on GCS it is true exactly when the
    provider answers that the object exists. Every rejected probe reads as
    false. *)
Theorem fileExists_never_raises {P} (s3sdk : S3SDK P) (gsdk : GCSSDK P) (b k : jsstring)
    (w : World P) :
  (exists r p,
     S3_fileExists s3sdk b k w =
       (Normal r, {| trace := trace w ++ [S3HeadObject b k]; provider := p |}) /\
     (r = true <-> exists p', s3_headObject s3sdk b k (provider w) = (Normal (), p'))) /\
  (exists r p,
     GCS_fileExists gsdk b k w =
       (Normal r, {| trace := trace w ++ [GcsExists b k]; provider := p |}) /\
     (r = true <-> exists p', gcs_exists gsdk b k (provider w) = (Normal true, p'))).
Proof.
  split.
  - rewrite S3_fileExists_run.
    destruct (s3_headObject s3sdk b k (provider w)) as [[[]|e] p];
      eexists _, _; (split; [reflexivity|]); split; eauto; try done.
    by intros [p' ?].
  - rewrite GCS_fileExists_run.
    destruct (gcs_exists gsdk b k (provider w)) as [[[|]|e] p];
      eexists _, _; (split; [reflexivity|]); split; eauto; try done;
      by intros [p' ?].
Qed.

Lemma getFile_never_raises_witness :
  let stored : Store := {[ (js "b", js "k") := Buf [1%N; 2%N] ]} in
  (S3_getFile memory_S3 (js "b") (js "k") (empty_world stored)).1 = Normal (Some (Buf [1%N; 2%N])) /\
  (S3_getFile memory_S3 (js "b") (js "other") (empty_world stored)).1 = Normal None /\
  (GCS_getFile failing_GCS (js "b") (js "k") (empty_world ())).1 = Normal None.
Proof.
  intros stored. split; [|split].
  - destruct (getFile_never_raises memory_S3 memory_GCS (js "b") (js "k") (empty_world stored))
      as [(r & p & Hrun & _ & Hok) _].
    rewrite Hrun. simpl. f_equal. exact (Hok _ _ eq_refl).
  - destruct (getFile_never_raises memory_S3 memory_GCS (js "b") (js "other")
                (empty_world stored)) as [(r & p & Hrun & Hrej & _) _].
    rewrite Hrun. simpl. f_equal. exact (Hrej _ _ eq_refl).
  - destruct (getFile_never_raises failing_S3 failing_GCS (js "b") (js "k") (empty_world ()))
      as [_ (r & p & Hrun & Hrej & _)].
    rewrite Hrun. simpl. f_equal. exact (Hrej _ _ eq_refl).
Defined.

Lemma fileExists_never_raises_witness :
  let stored : Store := {[ (js "b", js "k") := Buf [] ]} in
  (S3_fileExists memory_S3 (js "b") (js "k") (empty_world stored)).1 = Normal true /\
  (GCS_fileExists memory_GCS (js "b") (js "k") (empty_world stored)).1 = Normal true.
Proof.
  intros stored.
  destruct (fileExists_never_raises memory_S3 memory_GCS (js "b") (js "k") (empty_world stored))
    as [(r & p & Hrun & Hr) (r' & p' & Hrun' & Hr')].
  rewrite Hrun, Hrun'. simpl. split; f_equal.
  - apply Hr. eexists. reflexivity.
  - apply Hr'. eexists. reflexivity.
Defined.

(** ** Uploads *)

(** X4. When the provider rejects an upload, [uploadFile] of either client
    does not raise: it returns absent and logs exactly one error line, which
    carries the provider's error, the key and the bucket. *)
Theorem uploadFile_rejected {P} (s3sdk : S3SDK P) (gsdk : GCSSDK P) (b k : jsstring)
    (body : Buffer) (options : option UploadOptions) (w : World P) (e : thrown) (p : P) :
  (s3_upload s3sdk (S3_upload_request b k body options) (provider w) = (Throw e, p) ->
   exists req l,
     S3_uploadFile s3sdk b k body options w =
       (Normal None, {| trace := trace w ++ [S3Upload req; Log l]; provider := p |}) /\
     level l = LError /\
     fields l = [("error"%string, FError e); ("key"%string, FString k);
                 ("bucket"%string, FString b)]) /\
  (gcs_save gsdk b k body (GCS_save_options options) (provider w) = (Throw e, p) ->
   exists o l,
     GCS_uploadFile gsdk b k body options w =
       (Normal None, {| trace := trace w ++ [GcsSave b k body o; Log l]; provider := p |}) /\
     level l = LError /\
     fields l = [("error"%string, FError e); ("key"%string, FString k);
                 ("bucket"%string, FString b)]).
Proof.
  split; intros Hrej.
  - rewrite S3_uploadFile_run. cbv zeta. rewrite Hrej. eexists _, _. by split.
  - rewrite GCS_uploadFile_run. cbv zeta. rewrite Hrej. eexists _, _. by split.
Qed.

Lemma uploadFile_rejected_witness :
  (exists req l,
     S3_uploadFile failing_S3 (js "b") (js "k") (Buf []) None (empty_world ()) =
       (Normal None, {| trace := [S3Upload req; Log l]; provider := () |}) /\
     fields l = [("error"%string, FError timeout); ("key"%string, FString (js "k"));
                 ("bucket"%string, FString (js "b"))]) /\
  (exists o l,
     GCS_uploadFile failing_GCS (js "b") (js "k") (Buf []) None (empty_world ()) =
       (Normal None, {| trace := [GcsSave (js "b") (js "k") (Buf []) o; Log l];
                        provider := () |}) /\
     fields l = [("error"%string, FError timeout); ("key"%string, FString (js "k"));
                 ("bucket"%string, FString (js "b"))]).
Proof.
  destruct (uploadFile_rejected failing_S3 failing_GCS (js "b") (js "k") (Buf []) None
              (empty_world ()) timeout ()) as [Hs3 Hgcs].
  split.
  - destruct (Hs3 eq_refl) as (req & l & Hrun & _ & Hf). by exists req, l.
  - destruct (Hgcs eq_refl) as (o & l & Hrun & _ & Hf). by exists o, l.
Defined.



(** ** Composition on providers that keep what they are given *)

Lemma memory_S3_read_after_write : S3_read_after_write memory_S3.
Proof.
  intros req body p data p1 Hbody [= <- <-]. cbn. rewrite lookup_insert_eq, Hbody. cbn.
  split; eexists; reflexivity.
Qed.

Lemma memory_S3_gone_after_delete : S3_gone_after_delete memory_S3.
Proof.
  intros b k p p1 [= <-]. cbn. rewrite lookup_delete_eq. split; eexists _, _; reflexivity.
Qed.

Lemma memory_GCS_read_after_write : GCS_read_after_write memory_GCS.
Proof.
  split.
  - intros b k body o p p1 [= <-]. cbn. rewrite lookup_insert_eq. eexists; reflexivity.
  - intros b k p p1 body p2. cbn.
    destruct (p !! (b, k)) as [buf|] eqn:Hl; [|discriminate].
    intros [= <-] [= <- <-]. rewrite Hl. eexists; reflexivity.
Qed.

Lemma memory_GCS_gone_after_delete : GCS_gone_after_delete memory_GCS.
Proof.
  intros b k p p1 [= <-]. cbn. rewrite lookup_delete_eq. eexists _, _; reflexivity.
Qed.

(** X6. On a provider that keeps what it is given, a successful [uploadFile]
    followed by [getFile] of the same bucket and key on the same client
    returns the bytes uploaded, whatever the options; on S3 [fileExists] is
    then true. *)
Theorem upload_then_getFile {P} (s3sdk : S3SDK P) (gsdk : GCSSDK P) (b k : jsstring)
    (body : Buffer) (options : option UploadOptions) (w w1 : World P) (r : UploadResult) :
  (S3_read_after_write s3sdk ->
   S3_uploadFile s3sdk b k body options w = (Normal (Some r), w1) ->
   (S3_getFile s3sdk b k w1).1 = Normal (Some body) /\
   (S3_fileExists s3sdk b k w1).1 = Normal true) /\
  (GCS_read_after_write gsdk ->
   GCS_uploadFile gsdk b k body options w = (Normal (Some r), w1) ->
   (GCS_getFile gsdk b k w1).1 = Normal (Some body)).
Proof.
  split.
  - intros Hlaw. rewrite S3_uploadFile_run. cbv zeta.
    destruct (s3_upload s3sdk _ _) as [[data|e] p] eqn:Hup; [|discriminate].
    intros [= _ <-].
    destruct (Hlaw (S3_upload_request b k body options) body _ _ _ eq_refl Hup)
      as [[p2 Hget] [p3 Hhead]]. cbn in Hget, Hhead.
    rewrite S3_getFile_run, S3_fileExists_run. cbn. by rewrite Hget, Hhead.
  - intros [Hsave Hpub]. rewrite GCS_uploadFile_run. cbv zeta.
    destruct (gcs_save gsdk _ _ _ _ _) as [[[]|e] p] eqn:Hs; [|discriminate].
    destruct (Hsave _ _ _ _ _ _ Hs) as [p2 Hdl].
    destruct (bool_decide _).
    + destruct (gcs_makePublic gsdk _ _ _) as [[[]|e] p'] eqn:Hm; [|discriminate].
      intros [= _ <-]. destruct (Hpub _ _ _ _ _ _ Hm Hdl) as [p3 Hdl'].
      rewrite GCS_getFile_run. cbn. by rewrite Hdl'.
    + intros [= _ <-]. rewrite GCS_getFile_run. cbn. by rewrite Hdl.
Qed.

Lemma upload_then_getFile_witness :
  let options := Some {| contentType := Some (js "text/plain"); cacheControl := None;
                         acl := Some (js "public-read") |} in
  (exists r w1,
     S3_uploadFile memory_S3 (js "b") (js "k") (Buf [7%N]) options (empty_world ∅) =
       (Normal (Some r), w1) /\
     (S3_getFile memory_S3 (js "b") (js "k") w1).1 = Normal (Some (Buf [7%N]))) /\
  (exists r w1,
     GCS_uploadFile memory_GCS (js "b") (js "k") (Buf [7%N]) options (empty_world ∅) =
       (Normal (Some r), w1) /\
     (GCS_getFile memory_GCS (js "b") (js "k") w1).1 = Normal (Some (Buf [7%N]))).
Proof.
  intros options. split; eexists _, _; (split; [reflexivity|]).
  - exact (proj1 (proj1 (upload_then_getFile memory_S3 memory_GCS (js "b") (js "k") (Buf [7%N])
                           options (empty_world ∅) _ _)
                    memory_S3_read_after_write eq_refl)).
  - exact (proj2 (upload_then_getFile memory_S3 memory_GCS (js "b") (js "k") (Buf [7%N])
                    options (empty_world ∅) _ _)
             memory_GCS_read_after_write eq_refl).
Defined.

(** X7. On a provider that forgets what it deletes, when the provider accepts
    the delete call of [deleteFile], a following [getFile] of the same bucket
    and key returns absent, and on S3 [fileExists] is false. *)
Theorem delete_then_getFile {P} (s3sdk : S3SDK P) (gsdk : GCSSDK P) (b k : jsstring)
    (w : World P) (p1 : P) :
  (S3_gone_after_delete s3sdk ->
   s3_deleteObject s3sdk b k (provider w) = (Normal (), p1) ->
   (S3_getFile s3sdk b k (S3_deleteFile s3sdk b k w).2).1 = Normal None /\
   (S3_fileExists s3sdk b k (S3_deleteFile s3sdk b k w).2).1 = Normal false) /\
  (GCS_gone_after_delete gsdk ->
   gcs_delete gsdk b k (provider w) = (Normal (), p1) ->
   (GCS_getFile gsdk b k (GCS_deleteFile gsdk b k w).2).1 = Normal None).
Proof.
  split; intros Hlaw Hdel.
  - destruct (Hlaw _ _ _ _ Hdel) as [(e & p2 & Hget) (e' & p3 & Hhead)].
    rewrite S3_deleteFile_run, S3_getFile_run, S3_fileExists_run. cbn.
    rewrite Hdel. cbn. by rewrite Hget, Hhead.
  - destruct (Hlaw _ _ _ _ Hdel) as (e & p2 & Hdl).
    rewrite GCS_deleteFile_run, GCS_getFile_run. cbn. rewrite Hdel. cbn. by rewrite Hdl.
Qed.

Lemma delete_then_getFile_witness :
  let stored : Store := {[ (js "b", js "k") := Buf [7%N] ]} in
  (S3_getFile memory_S3 (js "b") (js "k")
     (S3_deleteFile memory_S3 (js "b") (js "k") (empty_world stored)).2).1 = Normal None /\
  (GCS_getFile memory_GCS (js "b") (js "k")
     (GCS_deleteFile memory_GCS (js "b") (js "k") (empty_world stored)).2).1 = Normal None.
Proof.
  intros stored.
  destruct (delete_then_getFile memory_S3 memory_GCS (js "b") (js "k") (empty_world stored)
              (delete (js "b", js "k") stored)) as [Hs3 Hgcs].
  split.
  - exact (proj1 (Hs3 memory_S3_gone_after_delete eq_refl)).
  - exact (Hgcs memory_GCS_gone_after_delete eq_refl).
Defined.

(** * Further properties of the cache, the upload wrapper and the redirect *)

Lemma cacheObj_after_upload {P GitSnackObj}
    (json5_stringify : GitSnackObj -> completion (option jsstring))
    (Buffer_from_string : jsstring -> Buffer) (client : StorageClient P)
    (importsBucket : jsstring) (d : GitSnackObj) (filename text : jsstring)
    (w w1 : World P) (r : option UploadResult) :
  json5_stringify d = Normal (Some text) ->
  uploadFile client importsBucket filename (Buffer_from_string text)
    (Some CacheSnackObj.cache_options) w = (Normal r, w1) ->
  CacheSnackObj.cacheObj json5_stringify Buffer_from_string client importsBucket d filename w =
    match r with
    | Some _ => (Normal (), w1)
    | None =>
        (Throw (ErrorObj "Error" (js "CacheObj failure: Failed to upload file")),
         {| trace := trace w1 ++
              [CacheSnackObj.cache_failure_line importsBucket
                 (ErrorObj "Error" (js "Failed to upload file")) filename];
            provider := provider w1 |})
    end.
Proof.
  intros Hstr Hup. unfold CacheSnackObj.cacheObj, CacheSnackObj.Buffer_from. unfold_M.
  rewrite Hstr, Hup. by destruct r.
Qed.

(** X8. Through the S3 and the GCS client a provider failure never reaches
    the caller of [cacheObj] in the raised error: for a descriptor that
    serializes, [cacheObj] either returns or raises the one error
    [CacheObj failure: Failed to upload file], whatever the provider's error
    was. On S3 the provider's error is in the client's log line only, which
    is followed by the cache's own. *)
Theorem cacheObj_hides_provider_error {P GitSnackObj Num}
    (json5_stringify : GitSnackObj -> completion (option jsstring))
    (Buffer_from_string : jsstring -> Buffer) (config : Config Num) (s3sdk : S3SDK P)
    (gsdk : GCSSDK P) (importsBucket : jsstring) (d : GitSnackObj)
    (filename text : jsstring) (w : World P) :
  json5_stringify d = Normal (Some text) ->
  (forall client,
     client = S3StorageClient config s3sdk \/ client = GCSStorageClient gsdk ->
     exists w',
       CacheSnackObj.cacheObj json5_stringify Buffer_from_string client importsBucket d
         filename w = (Normal (), w') \/
       CacheSnackObj.cacheObj json5_stringify Buffer_from_string client importsBucket d
         filename w =
         (Throw (ErrorObj "Error" (js "CacheObj failure: Failed to upload file")), w')) /\
  (forall e p,
     s3_upload s3sdk
       (S3_upload_request importsBucket filename (Buffer_from_string text)
          (Some CacheSnackObj.cache_options)) (provider w) = (Throw e, p) ->
     exists req l,
       CacheSnackObj.cacheObj json5_stringify Buffer_from_string
         (S3StorageClient config s3sdk) importsBucket d filename w =
         (Throw (ErrorObj "Error" (js "CacheObj failure: Failed to upload file")),
          {| trace := trace w ++
               [S3Upload req; Log l;
                CacheSnackObj.cache_failure_line importsBucket
                  (ErrorObj "Error" (js "Failed to upload file")) filename];
             provider := p |}) /\
       fields l = [("error"%string, FError e); ("key"%string, FString filename);
                   ("bucket"%string, FString importsBucket)]).
Proof.
  intros Hstr. split.
  - intros client [-> | ->].
    + destruct (S3_uploadFile_returns s3sdk importsBucket filename (Buffer_from_string text)
                  (Some CacheSnackObj.cache_options) w) as (r & w1 & Hup).
      rewrite (cacheObj_after_upload json5_stringify Buffer_from_string
                 (S3StorageClient config s3sdk) _ _ _ _ _ _ _ Hstr Hup). destruct r; eauto.
    + destruct (GCS_uploadFile_returns gsdk importsBucket filename (Buffer_from_string text)
                  (Some CacheSnackObj.cache_options) w) as (r & w1 & Hup).
      rewrite (cacheObj_after_upload json5_stringify Buffer_from_string
                 (GCSStorageClient gsdk) _ _ _ _ _ _ _ Hstr Hup). destruct r; eauto.
  - intros e p Hrej.
    assert (Hup := S3_uploadFile_run s3sdk importsBucket filename (Buffer_from_string text)
                     (Some CacheSnackObj.cache_options) w).
    cbv zeta in Hup. rewrite Hrej in Hup.
    rewrite (cacheObj_after_upload json5_stringify Buffer_from_string
               (S3StorageClient config s3sdk) _ _ _ _ _ _ _ Hstr Hup).
    eexists _, _. split.
    + cbn. rewrite <- app_assoc. reflexivity.
    + reflexivity.
Qed.

Lemma cacheObj_hides_provider_error_witness :
  exists w',
    CacheSnackObj.cacheObj atom_stringify Buffer_from_string
      (GCSStorageClient failing_GCS) (js "imports") (ABool true) (js "x.json")
      (empty_world ()) =
      (Throw (ErrorObj "Error" (js "CacheObj failure: Failed to upload file")), w').
Proof.
  destruct (cacheObj_hides_provider_error atom_stringify Buffer_from_string s3_config
              failing_S3 failing_GCS (js "imports") (ABool true) (js "x.json") (js "true")
              (empty_world ()) eq_refl) as [Hany _].
  destruct (Hany (GCSStorageClient failing_GCS) (or_intror eq_refl)) as [w' [H | H]].
  - discriminate H.
  - exists w'. exact H.
Defined.

(** X9. When the descriptor does not serialize to a text ([json5.stringify]
    raises or answers [undefined]), [cacheObj] raises without calling the
    storage client: the world only gains the cache's error line. After an
    error of message [m] the raised message is [CacheObj failure: m]. *)
Theorem cacheObj_serialization_failure {P GitSnackObj}
    (json5_stringify : GitSnackObj -> completion (option jsstring))
    (Buffer_from_string : jsstring -> Buffer) (client : StorageClient P)
    (importsBucket : jsstring) (d : GitSnackObj) (filename : jsstring) (w : World P) :
  (forall text, json5_stringify d <> Normal (Some text)) ->
  exists e cause,
    CacheSnackObj.cacheObj json5_stringify Buffer_from_string client importsBucket d filename w =
      (Throw e,
       {| trace := trace w ++ [CacheSnackObj.cache_failure_line importsBucket cause filename];
          provider := provider w |}) /\
    (forall name m, json5_stringify d = Throw (ErrorObj name m) ->
                    cause = ErrorObj name m /\
                    e = ErrorObj "Error" (js "CacheObj failure: " ++ m)) /\
    (json5_stringify d = Normal None ->
     exists m, cause = ErrorObj "TypeError" m /\
               e = ErrorObj "Error" (js "CacheObj failure: " ++ m)).
Proof.
  intros Hno. unfold CacheSnackObj.cacheObj, CacheSnackObj.Buffer_from. unfold_M.
  destruct (json5_stringify d) as [[text|]|e0] eqn:Hstr.
  - by destruct (Hno text).
  - eexists _, _. split; [reflexivity|]. split; [intros; discriminate|].
    intros _. eexists. split; reflexivity.
  - destruct e0 as [name m| |is_null];
      eexists _, _; (split; [reflexivity|]); (split; [|intros; discriminate]);
      intros name' m' [= <- <-] || intros name' m' [=]; by split.
Qed.

Lemma cacheObj_serialization_failure_witness :
  let circular (_ : Atom) : completion (option jsstring) :=
    Throw (ErrorObj "TypeError" (js "Converting circular structure to JSON5")) in
  CacheSnackObj.cacheObj circular Buffer_from_string (S3StorageClient s3_config memory_S3)
    (js "imports") ANull (js "x.json") (empty_world ∅) =
    (Throw (ErrorObj "Error" (js "CacheObj failure: Converting circular structure to JSON5")),
     {| trace := [CacheSnackObj.cache_failure_line (js "imports")
                    (ErrorObj "TypeError" (js "Converting circular structure to JSON5"))
                    (js "x.json")];
        provider := ∅ |}).
Proof.
  intros circular.
  destruct (cacheObj_serialization_failure circular Buffer_from_string
              (S3StorageClient s3_config memory_S3) (js "imports") ANull (js "x.json")
              (empty_world ∅)) as (e & cause & Hrun & Hthrown & _).
  - intros text. discriminate.
  - destruct (Hthrown _ _ eq_refl) as [-> ->]. exact Hrun.
Defined.

(** X10. [removeFromCache] never raises, also when the client's [deleteFile]
    does: it returns nothing and leaves the world as that one call left it. *)
Theorem removeFromCache_never_raises {P} (client : StorageClient P)
    (importsBucket filename : jsstring) (w : World P) :
  CacheSnackObj.removeFromCache client importsBucket filename w =
    (Normal (), (deleteFile client importsBucket filename w).2).
Proof.
  unfold CacheSnackObj.removeFromCache. unfold_M.
  by destruct (deleteFile client importsBucket filename w) as [[[]|e] w'].
Qed.

(** X11. Eviction: on a provider that forgets what it deletes, once the
    provider has accepted the delete call of [removeFromCache], [getCachedObj]
    of the same filename returns absent, on the S3 and on the GCS client. *)
Theorem removeFromCache_then_getCachedObj {P GitSnackObj Num}
    (json5_parse : jsstring -> completion GitSnackObj) (Buffer_toString : Buffer -> jsstring)
    (config : Config Num) (s3sdk : S3SDK P) (gsdk : GCSSDK P)
    (importsBucket filename : jsstring) (w : World P) (p1 : P) :
  (S3_gone_after_delete s3sdk ->
   s3_deleteObject s3sdk importsBucket filename (provider w) = (Normal (), p1) ->
   (CacheSnackObj.getCachedObj json5_parse Buffer_toString (S3StorageClient config s3sdk)
      importsBucket filename
      (CacheSnackObj.removeFromCache (S3StorageClient config s3sdk) importsBucket filename
         w).2).1 = Normal None) /\
  (GCS_gone_after_delete gsdk ->
   gcs_delete gsdk importsBucket filename (provider w) = (Normal (), p1) ->
   (CacheSnackObj.getCachedObj json5_parse Buffer_toString (GCSStorageClient gsdk)
      importsBucket filename
      (CacheSnackObj.removeFromCache (GCSStorageClient gsdk) importsBucket filename
         w).2).1 = Normal None).
Proof.
  split; intros Hlaw Hdel;
    unfold CacheSnackObj.getCachedObj, CacheSnackObj.removeFromCache; unfold_M;
    cbn [getFile deleteFile S3StorageClient GCSStorageClient].
  - destruct (Hlaw _ _ _ _ Hdel) as [(e & p2 & Hget) _].
    rewrite S3_deleteFile_run, S3_getFile_run. cbn. rewrite Hdel. cbn. by rewrite Hget.
  - destruct (Hlaw _ _ _ _ Hdel) as (e & p2 & Hdl).
    rewrite GCS_deleteFile_run, GCS_getFile_run. cbn. rewrite Hdel. cbn. by rewrite Hdl.
Qed.

Lemma removeFromCache_then_getCachedObj_witness :
  let client := S3StorageClient s3_config memory_S3 in
  exists w1,
    CacheSnackObj.cacheObj atom_stringify Buffer_from_string client (js "imports")
      (ABool true) (js "x.json") (empty_world ∅) = (Normal (), w1) /\
    (CacheSnackObj.getCachedObj atom_parse ascii_toString client (js "imports") (js "x.json")
       (CacheSnackObj.removeFromCache client (js "imports") (js "x.json") w1).2).1 =
      Normal None.
Proof.
  intros client. eexists. split; [reflexivity|].
  eapply (proj1 (removeFromCache_then_getCachedObj atom_parse ascii_toString s3_config
                   memory_S3 memory_GCS (js "imports") (js "x.json") _ _)).
  - exact memory_S3_gone_after_delete.
  - reflexivity.
Defined.

(** X12. The upload wrapper never raises on the S3 or the GCS client. On S3
    it makes one upload request for the artifacts bucket with the ACL
    [public-read], a one-year cache-control and no content type, and returns
    absent exactly when the provider rejects it. On GCS it saves with the
    public flag on and the same cache-control, and a successful save is
    always followed by a [makePublic] call. *)
Theorem upload_wrapper_requests {P Num} (config : Config Num) (s3sdk : S3SDK P)
    (gsdk : GCSSDK P) (artifactsBucket key : jsstring) (body : Buffer) (w : World P) :
  (exists r p evs,
     UploadFileUtil.uploadFile (S3StorageClient config s3sdk) artifactsBucket key body w =
       (Normal r,
        {| trace := trace w ++
             S3Upload {| Bucket := artifactsBucket; Key := key; Body := BodyBuffer body;
                         ACL := Some (js "public-read");
                         CacheControl := Some (js "public, max-age=31536000");
                         ContentType := None; WebsiteRedirectLocation := None |} :: evs;
           provider := p |}) /\
     (r = None <->
      exists e p',
        s3_upload s3sdk
          (S3_upload_request artifactsBucket key body
             (Some {| contentType := None;
                      cacheControl := Some (js "public, max-age=31536000");
                      acl := Some (js "public-read") |}))
          (provider w) = (Throw e, p'))) /\
  (exists r p evs,
     UploadFileUtil.uploadFile (GCSStorageClient gsdk) artifactsBucket key body w =
       (Normal r,
        {| trace := trace w ++
             GcsSave artifactsBucket key body
               {| metadata_cacheControl := js "public, max-age=31536000";
                  metadata_contentType := None; public := true |} :: evs;
           provider := p |}) /\
     (is_Some r -> evs = [GcsMakePublic artifactsBucket key]) /\
     (forall p', gcs_save gsdk artifactsBucket key body
                   {| metadata_cacheControl := js "public, max-age=31536000";
                      metadata_contentType := None; public := true |}
                   (provider w) = (Normal (), p') ->
                 exists evs', evs = GcsMakePublic artifactsBucket key :: evs')).
Proof.
  unfold UploadFileUtil.uploadFile. cbn [uploadFile S3StorageClient GCSStorageClient]. split.
  - rewrite S3_uploadFile_run. cbv zeta.
    destruct (s3_upload s3sdk _ _) as [[data|e] p] eqn:Hup.
    + eexists _, _, []. split; [reflexivity|]. split; [done|]. by intros (e & p' & ?).
    + eexists _, _, [_]. split; [reflexivity|]. split; eauto.
  - rewrite GCS_uploadFile_run. cbv zeta.
    change (GCS_save_options _) with
      {| metadata_cacheControl := js "public, max-age=31536000";
         metadata_contentType := None; public := true |}.
    destruct (gcs_save gsdk _ _ _ _ _) as [[[]|e] p] eqn:Hsave.
    + rewrite bool_decide_eq_true_2 by done.
      destruct (gcs_makePublic gsdk _ _ _) as [[[]|e] p'].
      * eexists _, _, [_]. split; [reflexivity|]. split; [done|]. eauto.
      * eexists _, _, [_; _]. split; [reflexivity|]. split; [by intros [? ?]|]. eauto.
    + eexists _, _, [_]. split; [reflexivity|]. split; [by intros [? ?]|].
      intros p' Hok. discriminate.
Qed.

Lemma upload_wrapper_requests_witness :
  (UploadFileUtil.uploadFile (S3StorageClient s3_config failing_S3) (js "artifacts")
     (js "bundle.js") (Buf []) (empty_world ())).1 = Normal None /\
  exists r w',
    UploadFileUtil.uploadFile (GCSStorageClient memory_GCS) (js "artifacts") (js "bundle.js")
      (Buf []) (empty_world ∅) = (Normal (Some r), w') /\
    trace w' =
      [GcsSave (js "artifacts") (js "bundle.js") (Buf [])
         {| metadata_cacheControl := js "public, max-age=31536000";
            metadata_contentType := None; public := true |};
       GcsMakePublic (js "artifacts") (js "bundle.js")].
Proof.
  split.
  - destruct (upload_wrapper_requests s3_config failing_S3 failing_GCS (js "artifacts")
                (js "bundle.js") (Buf []) (empty_world ())) as [(r & p & evs & Hrun & Hr) _].
    rewrite Hrun. cbn. f_equal. apply Hr. eexists _, _. reflexivity.
  - destruct (upload_wrapper_requests s3_config memory_S3 memory_GCS (js "artifacts")
                (js "bundle.js") (Buf []) (empty_world ∅))
      as [_ (r & p & evs & Hrun & Hsome & _)].
    destruct r as [r|]; [|discriminate Hrun].
    rewrite (Hsome (ex_intro _ r eq_refl)) in Hrun.
    eexists _, _. split; [exact Hrun | reflexivity].
Defined.

(** X13. For every configuration, loaded or built by hand, [addS3Redirect]
    never raises; unless the backend is S3 and the [s3] section is present it
    calls no provider, logs one warning and returns absent. *)
Theorem addS3Redirect_never_raises {P Num} (config : Config Num) (sdk : S3SDK P)
    (key destination : jsstring) (w : World P) :
  exists r w',
    AddS3Redirect.addS3Redirect config sdk key destination w = (Normal r, w') /\
    (storageBackend config <> s3 \/ cfg_s3 config = None ->
     r = None /\
     provider w' = provider w /\
     exists l, trace w' = trace w ++ [Log l] /\ level l = LWarn).
Proof.
  unfold AddS3Redirect.addS3Redirect, ExternalAws.s3_handle.
  case_bool_decide as Hb.
  - unfold_M. cbn. eexists _, _. split; [reflexivity|]. intros _. eauto.
  - destruct (cfg_s3 config) as [s3c|].
    + assert (Hb' : storageBackend config = s3) by (by destruct (storageBackend config)).
      rewrite bool_decide_eq_true_2 by done. unfold_M. cbn.
      destruct (s3_putObject sdk _ _) as [[ack|e] p'];
        eexists _, _; (split; [reflexivity|]); by intros [? | ?].
    + unfold_M. cbn. eexists _, _. split; [reflexivity|]. intros _. eauto.
Qed.

Lemma addS3Redirect_never_raises_witness :
  exists l,
    AddS3Redirect.addS3Redirect sectionless_config memory_S3 (js "old") (js "new")
      (empty_world ∅) = (Normal None, {| trace := [Log l]; provider := ∅ |}) /\
    level l = LWarn.
Proof.
  destruct (addS3Redirect_never_raises sectionless_config memory_S3 (js "old") (js "new")
              (empty_world ∅)) as (r & w' & Hrun & Hguard).
  destruct (Hguard (or_intror eq_refl)) as (-> & Hp & l & Ht & Hl).
  destruct w' as [tr pr]. cbn in Hp, Ht. subst tr pr. by exists l.
Defined.

(** ** Public URLs *)

Lemma Normal_inj {A} (a b : A) : Normal a = Normal b -> a = b.
Proof. by intros [= ->]. Qed.

(** X14. After a successful GCS upload, [getPublicUrl] of the same bucket and
    key returns the uploaded location exactly when every character of the key
    is one that [encodeURIComponent] leaves alone (an ASCII letter, a digit
    or one of [-_.!~*'()]). *)
Theorem GCS_location_is_public_url_iff {P} (sdk : GCSSDK P) (b k : jsstring) (body : Buffer)
    (options : option UploadOptions) (w w' : World P) (r : UploadResult) :
  GCS_uploadFile sdk b k body options w = (Normal (Some r), w') ->
  (GCS_getPublicUrl b k = Normal (location r) <->
   Forall (fun c => uriUnescaped c = true) k).
Proof.
  intros Hup.
  assert (Hloc : location r = js "https://storage.googleapis.com/" ++ b ++ js "/" ++ k).
  { rewrite GCS_uploadFile_run in Hup. cbv zeta in Hup.
    destruct (gcs_save sdk _ _ _ _ _) as [[[]|e] p]; [|discriminate].
    destruct (bool_decide _).
    - destruct (gcs_makePublic sdk _ _ _) as [[[]|e] p']; [|discriminate].
      by injection Hup as <- _.
    - by injection Hup as <- _. }
  rewrite Hloc. unfold GCS_getPublicUrl, encodeURIComponent. split.
  - intros Hurl. destruct (Encode k) as [enc|] eqn:He; [|discriminate].
    unfold_M. apply Normal_inj in Hurl.
    do 3 apply app_inv_head in Hurl. subst enc.
    apply Forall_forall. intros c Hin.
    destruct (uriUnescaped c) eqn:Hc; [done|].
    by destruct (Encode_changes _ _ _ He Hin Hc).
  - intros Hall. by rewrite (Encode_unescaped _ Hall).
Qed.

Lemma GCS_location_is_public_url_iff_witness :
  exists r w',
    GCS_uploadFile memory_GCS (js "b") (js "lodash-4.17.21.js") (Buf []) None (empty_world ∅) =
      (Normal (Some r), w') /\
    GCS_getPublicUrl (js "b") (js "lodash-4.17.21.js") = Normal (location r).
Proof.
  eexists _, _. split; [reflexivity|].
  apply (GCS_location_is_public_url_iff memory_GCS (js "b") (js "lodash-4.17.21.js") (Buf [])
           None (empty_world ∅) _ _ eq_refl).
  apply Forall_forall. intros c Hin. apply list_elem_of_In in Hin. cbn in Hin.
  repeat (destruct Hin as [<- | Hin]; [reflexivity|]). destruct Hin.
Defined.

(** X15. [getPublicUrl] of a constructed client returns exactly for the
    well-formed keys (no unpaired surrogate) and raises [URIError] for the
    others; the S3 method's own configuration error never fires on a
    constructed client. *)
Theorem getPublicUrl_returns_iff {P Num} (config : Config Num) (s3sdk : S3SDK P)
    (gsdk : GCSSDK P) (client : StorageClient P) (b k : jsstring) :
  new_S3StorageClient config s3sdk = Normal client \/
  new_GCSStorageClient config gsdk = Normal client ->
  ((exists url, getPublicUrl client b k = Normal url) <-> isWellFormed k = true) /\
  (isWellFormed k = false ->
   getPublicUrl client b k = Throw (ErrorObj "URIError" (js "URI malformed"))).
Proof.
  intros Hnew. rewrite <- Encode_is_Some.
  assert (Hurl : exists pre, getPublicUrl client b k =
                   match Encode k with
                   | Some enc => Normal (pre ++ enc)
                   | None => Throw (ErrorObj "URIError" (js "URI malformed"))
                   end).
  { destruct Hnew as [Hnew | Hnew].
    - apply new_S3StorageClient_inv in Hnew as [-> [s3c Hs3]].
      cbn [getPublicUrl S3StorageClient]. unfold S3_getPublicUrl, encodeURIComponent.
      rewrite Hs3. destruct (Encode k); unfold_M; [|by exists []].
      exists (js "https://s3-" ++ region s3c ++ js ".amazonaws.com/" ++ b ++ js "/").
      by rewrite <- !app_assoc.
    - apply new_GCSStorageClient_inv in Hnew as ->.
      cbn [getPublicUrl GCSStorageClient]. unfold GCS_getPublicUrl, encodeURIComponent.
      destruct (Encode k); unfold_M; [|by exists []].
      exists (js "https://storage.googleapis.com/" ++ b ++ js "/").
      by rewrite <- !app_assoc. }
  destruct Hurl as [pre ->]. split.
  - destruct (Encode k); split; eauto; try done; by intros [? ?].
  - intros Hbad. destruct (Encode k) as [enc|] eqn:He; [|done].
    assert (Hwf : is_Some (Encode k)) by (by rewrite He).
    apply Encode_is_Some in Hwf. congruence.
Qed.

Lemma getPublicUrl_returns_iff_witness :
  getPublicUrl (S3StorageClient s3_config memory_S3) (js "b") [97%N; 55357%N] =
    Throw (ErrorObj "URIError" (js "URI malformed")) /\
  exists url, getPublicUrl (GCSStorageClient memory_GCS) (js "b") [55357%N; 56832%N] =
                Normal url.
Proof.
  split.
  - apply (getPublicUrl_returns_iff s3_config memory_S3 memory_GCS _ (js "b")
             [97%N; 55357%N] (or_introl eq_refl)). reflexivity.
  - apply (getPublicUrl_returns_iff gcs_config memory_S3 memory_GCS _ (js "b")
             [55357%N; 56832%N] (or_intror eq_refl)). reflexivity.
Defined.

(** * Further properties of the configuration loader *)

Lemma test_or_cli_true (p : Process) : test_or_cli p = Normal true -> test_or_cli_mode p.
Proof.
  unfold test_or_cli, test_or_cli_mode. case_bool_decide; [by left|].
  destruct (process_argv p !! 1) as [script|]; [|discriminate].
  intros [= Hends]. right. eauto.
Qed.

(** The outcome of [env], by the variable's value and the mode test. *)
Lemma env_cases (p : Process) (varName : string) (testValue : option jsstring) :
  env p varName testValue =
    if truthy (process_env p !! varName)
    then Normal (default [] (process_env p !! varName))
    else match test_or_cli p with
         | Normal true => Normal (nullish_default testValue (js "noop"))
         | Normal false => Throw (not_specified varName)
         | Throw e => Throw e
         end.
Proof.
  unfold env. destruct (process_env p !! varName) as [[|c v]|]; cbn; try done;
    by destruct (test_or_cli p) as [[|]|e].
Qed.

Lemma env_inv (p : Process) (varName : string) (testValue : option jsstring) (v : jsstring) :
  env p varName testValue = Normal v ->
  from_env p varName v \/ test_or_cli p = Normal true.
Proof.
  rewrite env_cases. unfold from_env.
  destruct (process_env p !! varName) as [[|c s]|]; cbn.
  - destruct (test_or_cli p) as [[|]|e]; try discriminate. by right.
  - intros [= <-]. by left.
  - destruct (test_or_cli p) as [[|]|e]; try discriminate. by right.
Qed.

(** X16. Outside the test environment an unset or empty variable makes [env]
    raise, in one of two ways: when the process has an entry script that does
    not end in [cli.js], an [Error] whose message names the variable; when
    the process has no second argument at all, the [TypeError] of reading
    [endsWith] off [undefined], which does not name the variable. *)
Theorem env_failure_modes (p : Process) (varName : string) (testValue : option jsstring) :
  truthy (process_env p !! varName) = false ->
  process_env p !! "NODE_ENV"%string <> Some (js "test") ->
  (forall script,
     process_argv p !! 1 = Some script -> endsWith script (js "cli.js") = false ->
     exists m, env p varName testValue = Throw (ErrorObj "Error" m) /\
               m = js "environment variable " ++ js varName ++ js " isn't specified") /\
  (process_argv p !! 1 = None ->
   env p varName testValue =
     Throw (ErrorObj "TypeError"
              (js "Cannot read properties of undefined (reading 'endsWith')"))).
Proof.
  intros Hv Htest. rewrite env_cases, Hv. unfold test_or_cli.
  rewrite bool_decide_eq_false_2 by done. split.
  - intros script -> ->. eexists. split; reflexivity.
  - intros ->. reflexivity.
Qed.

Lemma env_failure_modes_witness :
  env scriptless_process "REDIS_URL" None =
    Throw (ErrorObj "TypeError" (js "Cannot read properties of undefined (reading 'endsWith')")) /\
  env empty_project_process "GCS_PROJECT_ID" None =
    Throw (ErrorObj "Error" (js "environment variable GCS_PROJECT_ID isn't specified")).
Proof.
  split.
  - apply (env_failure_modes scriptless_process "REDIS_URL" None); [reflexivity | discriminate
                                                                     | reflexivity].
  - destruct (env_failure_modes empty_project_process "GCS_PROJECT_ID" None) as [Hnamed _];
      [reflexivity | discriminate |].
    destruct (Hnamed (js "/app/build/index.js") eq_refl eq_refl) as (m & Hrun & ->).
    exact Hrun.
Defined.

Ltac destruct_env H :=
  repeat match type of H with
         | context [env ?p ?v ?t] =>
             let E := fresh "Henv" in destruct (env p v t) eqn:E; [|discriminate]
         end.

(** X17. A loaded configuration carries the section of exactly one backend:
    on S3 the [aws] and [s3] sections and no [gcs] section, on GCS the [gcs]
    section and neither of the others. Its [sentry] section is present
    exactly when [NODE_ENV] is [production] and [DISABLE_INSTRUMENTATION] is
    unset or empty. *)
Theorem load_config_sections {Num} (parseInt10 : jsstring -> Num)
    (path_join : jsstring -> jsstring -> jsstring) (p : Process) (config : Config Num) :
  load_config parseInt10 path_join p = Normal config ->
  (storageBackend config = s3 ->
   is_Some (cfg_aws config) /\ is_Some (cfg_s3 config) /\ cfg_gcs config = None) /\
  (storageBackend config = gcs ->
   is_Some (cfg_gcs config) /\ cfg_aws config = None /\ cfg_s3 config = None) /\
  (is_Some (sentry_dsn config) <->
   process_env p !! "NODE_ENV"%string = Some (js "production") /\
   truthy (process_env p !! "DISABLE_INSTRUMENTATION"%string) = false).
Proof.
  unfold load_config, resolved_backend. unfold_M. intros H.
  destruct_env H.
  destruct (useGCS p); destruct_env H;
    destruct (truthy (process_env p !! "DISABLE_INSTRUMENTATION"%string)); cbn [negb andb] in H;
    try case_bool_decide; destruct_env H;
    injection H as <-; cbn; repeat split; intros; try discriminate; eauto;
    try (by destruct H as [? ?]); try (by destruct H); try tauto.
Qed.

Lemma load_config_sections_witness :
  exists config : Config nat,
    load_config (fun _ => 3012) (fun a b => a ++ js "/" ++ b) gcs_process = Normal config /\
    is_Some (cfg_gcs config) /\ cfg_aws config = None /\ cfg_s3 config = None.
Proof.
  eexists. split; [reflexivity|].
  exact (proj1 (proj2 (load_config_sections (fun _ => 3012) (fun a b => a ++ js "/" ++ b)
                         gcs_process _ eq_refl)) eq_refl).
Defined.

Ltac env_from Hmode :=
  repeat match goal with
         | E : env ?p ?v ?t = Normal ?s |- _ =>
             apply env_inv in E as [E | E];
             [ revert E | exfalso; exact (Hmode (test_or_cli_true _ E)) ]
         end;
  intros.

(** X18. A configuration loaded outside the test and [cli.js] modes holds the
    environment's own values, each set and non-empty: no placeholder stands
    in any required field. *)
Theorem loaded_values_from_env {Num} (parseInt10 : jsstring -> Num)
    (path_join : jsstring -> jsstring -> jsstring) (p : Process) (config : Config Num) :
  load_config parseInt10 path_join p = Normal config ->
  ~ test_or_cli_mode p ->
  from_env p "IMPORT_SERVER_URL" (url config) /\
  from_env p "REDIS_URL" (redis_url config) /\
  from_env p "CLOUDFRONT_URL" (cloudfront_url config) /\
  from_env p "API_SERVER_URL" (api_url config) /\
  (forall a, cfg_aws config = Some a ->
     from_env p "AWS_ACCESS_KEY_ID" (access_key a) /\
     from_env p "AWS_SECRET_ACCESS_KEY" (secret_key a)) /\
  (forall s, cfg_s3 config = Some s ->
     from_env p "S3_BUCKET" (s3_bucket s) /\
     from_env p "IMPORTS_S3_BUCKET" (s3_imports_bucket s) /\
     from_env p "S3_REGION" (region s)) /\
  (forall g, cfg_gcs config = Some g ->
     from_env p "GCS_PROJECT_ID" (projectId g) /\
     from_env p "GCS_BUCKET" (gcs_bucket g) /\
     from_env p "GCS_IMPORTS_BUCKET" (gcs_imports_bucket g)) /\
  (forall dsn, sentry_dsn config = Some dsn -> from_env p "SENTRY_DSN" dsn).
Proof.
  unfold load_config. unfold_M. intros H Hmode.
  destruct_env H.
  destruct (useGCS p); destruct_env H;
    destruct (negb _ && _); destruct_env H;
    injection H as <-; cbn;
    env_from Hmode; unfold from_env in *;
    repeat split; intros; simplify_eq; cbn; tauto.
Qed.

Lemma loaded_values_from_env_witness :
  exists config : Config nat,
    load_config (fun _ => 3012) (fun a b => a ++ js "/" ++ b) s3_process = Normal config /\
    from_env s3_process "REDIS_URL" (redis_url config).
Proof.
  eexists. split; [reflexivity|].
  refine (proj1 (proj2 (loaded_values_from_env (fun _ => 3012) (fun a b => a ++ js "/" ++ b)
                          s3_process _ eq_refl _))).
  intros [Htest | (script & Hargv & Hends)]; [discriminate Htest|].
  injection Hargv as <-. discriminate Hends.
Defined.

Ltac walk_var p v :=
  destruct (truthy (process_env p !! v)) eqn:?; cbv beta iota delta [negb];
  [| first [reflexivity | eauto]].

(** X19. The outcome of loading the configuration. With every variable the
    loader requires set and non-empty (the four server variables, the
    variables of the resolved backend, and [SENTRY_DSN] when Sentry is on) a
    configuration is returned. Otherwise, outside the test and [cli.js] modes
    the loader raises the error naming the first missing variable in reading
    order, inside them it returns a configuration, and without an entry
    script it raises the [TypeError] of the mode test. *)
Theorem load_config_outcome {Num} (parseInt10 : jsstring -> Num)
    (path_join : jsstring -> jsstring -> jsstring) (p : Process) :
  match first_missing p with
  | None => exists config, load_config parseInt10 path_join p = Normal config
  | Some v =>
      match test_or_cli p with
      | Normal true => exists config, load_config parseInt10 path_join p = Normal config
      | Normal false => load_config parseInt10 path_join p = Throw (not_specified v)
      | Throw e => load_config parseInt10 path_join p = Throw e
      end
  end.
Proof.
  destruct (test_or_cli p) as [[|]|e] eqn:Ht.
  - apply test_or_cli_true in Ht.
    destruct (first_missing p); by apply load_config_in_mode.
  - unfold first_missing, required_vars, load_config. unfold_M.
    rewrite !env_cases, Ht.
    destruct (useGCS p); destruct (negb _ && _); cbn [app find];
      walk_var p "IMPORT_SERVER_URL"%string; walk_var p "REDIS_URL"%string;
      walk_var p "CLOUDFRONT_URL"%string; walk_var p "API_SERVER_URL"%string;
      try (walk_var p "GCS_PROJECT_ID"%string; walk_var p "GCS_BUCKET"%string;
           walk_var p "GCS_IMPORTS_BUCKET"%string);
      try (walk_var p "AWS_ACCESS_KEY_ID"%string; walk_var p "AWS_SECRET_ACCESS_KEY"%string;
           walk_var p "S3_BUCKET"%string; walk_var p "IMPORTS_S3_BUCKET"%string;
           walk_var p "S3_REGION"%string);
      try walk_var p "SENTRY_DSN"%string; eauto.
  - unfold first_missing, required_vars, load_config. unfold_M.
    rewrite !env_cases, Ht.
    destruct (useGCS p); destruct (negb _ && _); cbn [app find];
      walk_var p "IMPORT_SERVER_URL"%string; walk_var p "REDIS_URL"%string;
      walk_var p "CLOUDFRONT_URL"%string; walk_var p "API_SERVER_URL"%string;
      try (walk_var p "GCS_PROJECT_ID"%string; walk_var p "GCS_BUCKET"%string;
           walk_var p "GCS_IMPORTS_BUCKET"%string);
      try (walk_var p "AWS_ACCESS_KEY_ID"%string; walk_var p "AWS_SECRET_ACCESS_KEY"%string;
           walk_var p "S3_BUCKET"%string; walk_var p "IMPORTS_S3_BUCKET"%string;
           walk_var p "S3_REGION"%string);
      try walk_var p "SENTRY_DSN"%string; eauto.
Qed.

Lemma load_config_outcome_witness :
  load_config (fun _ => 3012) (fun a b => a ++ js "/" ++ b) use_gcs_only_process =
    Throw (ErrorObj "Error" (js "environment variable GCS_PROJECT_ID isn't specified")) /\
  exists config : Config nat,
    load_config (fun _ => 3012) (fun a b => a ++ js "/" ++ b) s3_process = Normal config.
Proof.
  split.
  - exact (load_config_outcome (fun _ => 3012) (fun a b => a ++ js "/" ++ b)
             use_gcs_only_process).
  - exact (load_config_outcome (fun _ => 3012) (fun a b => a ++ js "/" ++ b) s3_process).
Defined.

(** X21. The storage module's initialization, for any configuration. It logs
    the backend line first. With the backend's sections present it exports
    that backend's client and bucket names; with one missing it raises the
    constructor's configuration error, so the bucket exports never read a
    property off a missing section. *)
Theorem storage_module_outcome {P Num} (config : Config Num) (s3sdk : S3SDK P)
    (gsdk : GCSSDK P) (w : World P) :
  exists c l,
    storage_module config s3sdk gsdk w =
      (c, {| trace := trace w ++ [Log l]; provider := provider w |}) /\
    level l = LInfo /\
    match storageBackend config with
    | gcs =>
        msg l = js "Using Google Cloud Storage backend" /\
        match cfg_gcs config with
        | Some g =>
            c = Normal {| storageClient := GCSStorageClient gsdk;
                          artifactsBucket := gcs_bucket g;
                          importsBucket := gcs_imports_bucket g |}
        | None =>
            c = Throw (ErrorObj "Error"
                         (js "GCS configuration is required when using GCS storage backend"))
        end
    | s3 =>
        msg l = js "Using AWS S3 backend" /\
        match cfg_aws config, cfg_s3 config with
        | Some _, Some s =>
            c = Normal {| storageClient := S3StorageClient config s3sdk;
                          artifactsBucket := s3_bucket s;
                          importsBucket := s3_imports_bucket s |}
        | _, _ =>
            c = Throw (ErrorObj "Error"
                         (js "AWS/S3 configuration is required when using S3 storage backend"))
        end
    end.
Proof.
  unfold storage_module, new_GCSStorageClient, new_S3StorageClient, non_null.
  destruct (storageBackend config).
  - rewrite bool_decide_eq_true_2 by done. unfold_M. cbn.
    destruct (cfg_gcs config); eexists _, _; (split; [reflexivity|]); by repeat split.
  - rewrite bool_decide_eq_false_2 by done. unfold_M. cbn.
    destruct (cfg_aws config), (cfg_s3 config);
      eexists _, _; (split; [reflexivity|]); by repeat split.
Qed.

Lemma storage_module_outcome_witness :
  (storage_module sectionless_config memory_S3 memory_GCS (empty_world ∅)).1 =
    Throw (ErrorObj "Error"
             (js "AWS/S3 configuration is required when using S3 storage backend")) /\
  exists m, (storage_module gcs_config memory_S3 memory_GCS (empty_world ∅)).1 = Normal m /\
            importsBucket m = js "imports".
Proof.
  split.
  - destruct (storage_module_outcome sectionless_config memory_S3 memory_GCS (empty_world ∅))
      as (c & l & Hrun & _ & _ & Hc).
    rewrite Hrun. exact Hc.
  - destruct (storage_module_outcome gcs_config memory_S3 memory_GCS (empty_world ∅))
      as (c & l & Hrun & _ & _ & Hc).
    rewrite Hrun. eexists. split; [exact Hc | reflexivity].
Defined.

(** X22. For a loaded configuration, [createS3Client] returns a client, and
    the exported [s3] handle is a client, exactly when neither
    [GCS_PROJECT_ID] nor [USE_GCS] is set to a non-empty value; otherwise
    [createS3Client] raises and the handle is the empty object. *)
Theorem createS3Client_by_environment {P Num} (parseInt10 : jsstring -> Num)
    (path_join : jsstring -> jsstring -> jsstring) (p : Process) (config : Config Num)
    (sdk : S3SDK P) :
  load_config parseInt10 path_join p = Normal config ->
  (ExternalAws.createS3Client config sdk = Normal sdk <->
   ~ (set_nonempty p "GCS_PROJECT_ID" \/ set_nonempty p "USE_GCS")) /\
  (ExternalAws.s3_handle config sdk = Some sdk <->
   ~ (set_nonempty p "GCS_PROJECT_ID" \/ set_nonempty p "USE_GCS")) /\
  (set_nonempty p "GCS_PROJECT_ID" \/ set_nonempty p "USE_GCS" ->
   ExternalAws.createS3Client config sdk =
     Throw (ErrorObj "Error" (js "S3 client requested but not using S3 storage backend")) /\
   ExternalAws.s3_handle config sdk = None).
Proof.
  intros Hload. apply load_config_inv in Hload as [Hb _].
  rewrite <- resolved_backend_gcs, <- Hb.
  unfold ExternalAws.createS3Client, ExternalAws.s3_handle.
  destruct (storageBackend config); vm_compute bool_decide; repeat split; done.
Qed.

Lemma createS3Client_by_environment_witness :
  ExternalAws.createS3Client gcs_config memory_S3 =
    Throw (ErrorObj "Error" (js "S3 client requested but not using S3 storage backend")) /\
  ExternalAws.s3_handle s3_config memory_S3 = Some memory_S3.
Proof.
  split.
  - refine (proj1 (proj2 (proj2 (createS3Client_by_environment (fun _ => 3012)
                                   (fun a b => a ++ js "/" ++ b) gcs_process gcs_config
                                   memory_S3 _)) _)).
    + vm_compute. reflexivity.
    + left. exists (js "proj"). split; [reflexivity | discriminate].
  - refine (proj2 (proj1 (proj2 (createS3Client_by_environment (fun _ => 3012)
                                   (fun a b => a ++ js "/" ++ b) s3_process s3_config
                                   memory_S3 _))) _).
    + vm_compute. reflexivity.
    + intros [(v & Hv & _) | (v & Hv & _)]; discriminate Hv.
Defined.

(** * Percent-encoding is injective *)

Section PercentEncoding.

Local Open Scope N_scope.

Ltac lia_div := zify; Z.to_euclidean_division_equations; lia.

Lemma N_forall_below (K : nat) (f : N -> bool) :
  forallb f (map N.of_nat (seq 0 K)) = true -> forall v, v < N.of_nat K -> f v = true.
Proof.
  intros H v Hv. rewrite forallb_forall in H. apply H.
  apply in_map_iff. exists (N.to_nat v). split; [lia|]. apply in_seq. lia.
Qed.

Lemma lor_128 v : v < 64 -> N.lor 128 v = 128 + v.
Proof.
  intros Hv. apply N.eqb_eq.
  apply (N_forall_below 64 (fun v => N.lor 128 v =? 128 + v)); [|exact Hv].
  vm_compute. reflexivity.
Qed.

Lemma lor_192 v : v < 32 -> N.lor 192 v = 192 + v.
Proof.
  intros Hv. apply N.eqb_eq.
  apply (N_forall_below 32 (fun v => N.lor 192 v =? 192 + v)); [|exact Hv].
  vm_compute. reflexivity.
Qed.

Lemma lor_224 v : v < 16 -> N.lor 224 v = 224 + v.
Proof.
  intros Hv. apply N.eqb_eq.
  apply (N_forall_below 16 (fun v => N.lor 224 v =? 224 + v)); [|exact Hv].
  vm_compute. reflexivity.
Qed.

Lemma lor_240 v : v < 8 -> N.lor 240 v = 240 + v.
Proof.
  intros Hv. apply N.eqb_eq.
  apply (N_forall_below 8 (fun v => N.lor 240 v =? 240 + v)); [|exact Hv].
  vm_compute. reflexivity.
Qed.

Lemma land_63 x : N.land x 63 = x mod 64.
Proof. change 63 with (N.ones 6). by rewrite N.land_ones. Qed.

(** The octets of a code point, in arithmetic. *)
Lemma utf8_octets_arith cp :
  cp < 1114112 ->
  utf8_octets cp =
    if cp <? 128 then [cp]
    else if cp <? 2048 then [192 + cp / 64; 128 + cp mod 64]
    else if cp <? 65536 then [224 + cp / 4096; 128 + (cp / 64) mod 64; 128 + cp mod 64]
    else [240 + cp / 262144; 128 + (cp / 4096) mod 64; 128 + (cp / 64) mod 64;
          128 + cp mod 64].
Proof.
  intros Hcp. unfold utf8_octets.
  rewrite !land_63, !N.shiftr_div_pow2.
  change (2 ^ 6) with 64. change (2 ^ 12) with 4096. change (2 ^ 18) with 262144.
  rewrite !lor_128 by lia_div.
  destruct (cp <? 128) eqn:H1; [done|].
  destruct (cp <? 2048) eqn:H2.
  { apply N.ltb_lt in H2. by rewrite lor_192 by lia_div. }
  destruct (cp <? 65536) eqn:H3.
  { apply N.ltb_lt in H3. by rewrite lor_224 by lia_div. }
  by rewrite lor_240 by lia_div.
Qed.

Lemma utf8_octets_bound cp :
  cp < 1114112 -> Forall (fun o => o < 256) (utf8_octets cp).
Proof.
  intros Hcp. rewrite utf8_octets_arith by done.
  destruct (cp <? 128) eqn:H1; [apply N.ltb_lt in H1; repeat constructor; lia|].
  destruct (cp <? 2048) eqn:H2; [apply N.ltb_lt in H2; repeat constructor; lia_div|].
  destruct (cp <? 65536) eqn:H3; [apply N.ltb_lt in H3; repeat constructor; lia_div|].
  repeat constructor; lia_div.
Qed.

Lemma split2 a : a = 64 * (a / 64) + a mod 64.
Proof. lia_div. Qed.

Lemma split3 a : a = 4096 * (a / 4096) + 64 * ((a / 64) mod 64) + a mod 64.
Proof. lia_div. Qed.

Lemma split4 a :
  a = 262144 * (a / 262144) + 4096 * ((a / 4096) mod 64) + 64 * ((a / 64) mod 64) + a mod 64.
Proof. lia_div. Qed.

(** UTF-8 is self-delimiting: the octets of a code point, followed by
    anything, determine the code point and what follows. *)
Lemma utf8_octets_app_inj cp1 cp2 (r1 r2 : list N) :
  cp1 < 1114112 -> cp2 < 1114112 ->
  utf8_octets cp1 ++ r1 = utf8_octets cp2 ++ r2 -> cp1 = cp2 /\ r1 = r2.
Proof.
  intros H1 H2. rewrite !utf8_octets_arith by done.
  destruct (cp1 <? 128) eqn:A1; [apply N.ltb_lt in A1|apply N.ltb_ge in A1];
    [|destruct (cp1 <? 2048) eqn:A2; [apply N.ltb_lt in A2|apply N.ltb_ge in A2];
      [|destruct (cp1 <? 65536) eqn:A3; [apply N.ltb_lt in A3|apply N.ltb_ge in A3]]];
    (destruct (cp2 <? 128) eqn:B1; [apply N.ltb_lt in B1|apply N.ltb_ge in B1];
     [|destruct (cp2 <? 2048) eqn:B2; [apply N.ltb_lt in B2|apply N.ltb_ge in B2];
       [|destruct (cp2 <? 65536) eqn:B3; [apply N.ltb_lt in B3|apply N.ltb_ge in B3]]]);
    cbn [app]; intros Heq; injection Heq; clear Heq; intros;
    try (exfalso; lia_div);
    (split; [|done]);
    first [ lia
          | rewrite (split2 cp1), (split2 cp2); lia
          | rewrite (split3 cp1), (split3 cp2); lia
          | rewrite (split4 cp1), (split4 cp2); lia ].
Qed.

Lemma hexDigit_inj a b : a < 16 -> b < 16 -> hexDigit a = hexDigit b -> a = b.
Proof.
  unfold hexDigit. intros Ha Hb.
  destruct (N.ltb_spec a 10), (N.ltb_spec b 10); lia.
Qed.

Lemma percentOctet_inj o1 o2 :
  o1 < 256 -> o2 < 256 -> percentOctet o1 = percentOctet o2 -> o1 = o2.
Proof.
  intros H1 H2 [= Hhi Hlo].
  apply hexDigit_inj in Hhi; [|lia_div..]. apply hexDigit_inj in Hlo; [|lia_div..].
  lia_div.
Qed.

Lemma hexDigit_not_percent a : a < 16 -> hexDigit a <> 37.
Proof. unfold hexDigit. destruct (N.ltb_spec a 10); lia. Qed.

(** Two percent-encoded octet sequences that read the same, each followed by
    anything, are one a continuation of the other. *)
Lemma percent_octets_prefix (l1 l2 : list N) (r1 r2 : jsstring) :
  Forall (fun o => o < 256) l1 -> Forall (fun o => o < 256) l2 ->
  concat (percentOctet <$> l1) ++ r1 = concat (percentOctet <$> l2) ++ r2 ->
  exists l', (l2 = l1 ++ l' /\ r1 = concat (percentOctet <$> l') ++ r2) \/
             (l1 = l2 ++ l' /\ r2 = concat (percentOctet <$> l') ++ r1).
Proof.
  intros Hl1. revert l2. induction Hl1 as [|o1 l1 Ho1 _ IH]; intros l2 Hl2 Heq.
  - exists l2. left. by split.
  - destruct Hl2 as [|o2 l2 Ho2 Hl2].
    + exists (o1 :: l1). right. by split.
    + cbn [fmap list_fmap concat] in Heq. rewrite <- !app_assoc in Heq.
      assert (Hlen : length (percentOctet o1) = length (percentOctet o2)) by done.
      apply app_inj_1 in Heq as [Ho Heq]; [|exact Hlen].
      apply percentOctet_inj in Ho as ->; [|done..].
      destruct (IH l2 Hl2 Heq) as [l' [[-> ->] | [-> ->]]]; exists l'; [left | right]; done.
Qed.

Lemma percentEncode_app_inj cp1 cp2 (r1 r2 : jsstring) :
  cp1 < 1114112 -> cp2 < 1114112 ->
  percentEncode cp1 ++ r1 = percentEncode cp2 ++ r2 -> cp1 = cp2 /\ r1 = r2.
Proof.
  intros H1 H2 Heq. unfold percentEncode in Heq.
  destruct (percent_octets_prefix _ _ _ _ (utf8_octets_bound _ H1) (utf8_octets_bound _ H2) Heq)
    as [l' [[Hl Hr] | [Hl Hr]]].
  - destruct (utf8_octets_app_inj cp1 cp2 l' [] H1 H2) as [-> ->];
      [by rewrite app_nil_r|]. done.
  - destruct (utf8_octets_app_inj cp2 cp1 l' [] H2 H1) as [-> ->];
      [by rewrite app_nil_r|]. done.
Qed.

Lemma percentEncode_head cp : exists t, percentEncode cp = 37 :: t.
Proof.
  unfold percentEncode, utf8_octets. repeat case_match; cbn; eauto.
Qed.

Lemma surrogate_ranges c :
  (isLeadingSurrogate c = true <-> 55296 <= c <= 56319) /\
  (isTrailingSurrogate c = true <-> 56320 <= c <= 57343).
Proof.
  unfold isLeadingSurrogate, isTrailingSurrogate, in_range.
  rewrite !andb_true_iff, !N.leb_le. done.
Qed.

(** How [Encode] treats the head of a string. *)
Lemma Encode_cons_inv c r e :
  Encode (c :: r) = Some e ->
  (uriUnescaped c = true /\ exists e', e = c :: e' /\ Encode r = Some e') \/
  (uriUnescaped c = false /\ isLeadingSurrogate c = false /\
   exists e', e = percentEncode c ++ e' /\ Encode r = Some e') \/
  (uriUnescaped c = false /\
   exists d r' e', r = d :: r' /\ isLeadingSurrogate c = true /\
                   isTrailingSurrogate d = true /\
                   e = percentEncode (UTF16SurrogatePairToCodePoint c d) ++ e' /\
                   Encode r' = Some e').
Proof.
  cbn [Encode]. destruct (uriUnescaped c).
  - destruct (Encode r) as [e'|]; [|done]. intros [= <-]. left. eauto.
  - destruct (isTrailingSurrogate c); [done|].
    destruct (isLeadingSurrogate c).
    + destruct r as [|d r']; [done|].
      destruct (isTrailingSurrogate d) eqn:Hd; [|done].
      destruct (Encode r') as [e'|] eqn:He'; [|done]. intros [= <-].
      right. right. split; [done|]. exists d, r', e'. by repeat split.
    + destruct (Encode r) as [e'|]; [|done]. intros [= <-].
      right. left. eauto.
Qed.

Lemma Encode_cons_head c r e :
  Encode (c :: r) = Some e -> exists h t, e = h :: t.
Proof.
  intros He. apply Encode_cons_inv in He.
  destruct He as [(_ & e' & -> & _) | [(_ & _ & e' & -> & _) |
                  (_ & d & r' & e' & _ & _ & _ & -> & _)]]; [by eauto| |].
  - destruct (percentEncode_head c) as [t ->]. cbn. eauto.
  - destruct (percentEncode_head (UTF16SurrogatePairToCodePoint c d)) as [t ->]. cbn. eauto.
Qed.

Lemma Encode_inj (s1 s2 e : jsstring) :
  sixteen_bit s1 -> sixteen_bit s2 ->
  Encode s1 = Some e -> Encode s2 = Some e -> s1 = s2.
Proof.
  remember (length s1) as n eqn:Hn. revert s1 s2 e Hn.
  induction n as [n IH] using lt_wf_ind. intros s1 s2 e Hn Hs1 Hs2 He1 He2.
  destruct s1 as [|c1 r1], s2 as [|c2 r2].
  - done.
  - injection He1 as <-. by destruct (Encode_cons_head _ _ _ He2) as (h & t & [=]).
  - injection He2 as <-. by destruct (Encode_cons_head _ _ _ He1) as (h & t & [=]).
  - apply Forall_cons in Hs1 as [Hc1 Hr1]. apply Forall_cons in Hs2 as [Hc2 Hr2].
    apply Encode_cons_inv in He1, He2.
    destruct He1 as [(U1 & e1 & -> & E1) | [(U1 & L1 & e1 & -> & E1) |
                     (U1 & d1 & r1' & e1 & -> & L1 & T1 & -> & E1)]];
      destruct He2 as [(U2 & e2 & He & E2) | [(U2 & L2 & e2 & He & E2) |
                       (U2 & d2 & r2' & e2 & -> & L2 & T2 & He & E2)]].
    + injection He as <- <-. f_equal.
      apply (IH (length r1) ltac:(subst n; cbn; lia) r1 r2 e1 eq_refl Hr1 Hr2 E1 E2).
    + destruct (percentEncode_head c2) as [t Ht]. rewrite Ht in He.
      injection He as -> _. discriminate U1.
    + destruct (percentEncode_head (UTF16SurrogatePairToCodePoint c2 d2)) as [t Ht].
      rewrite Ht in He. injection He as -> _. discriminate U1.
    + destruct (percentEncode_head c1) as [t Ht]. rewrite Ht in He.
      injection He as <- _. discriminate U2.
    + apply percentEncode_app_inj in He as [-> ->]; [|lia..]. f_equal.
      apply (IH (length r1) ltac:(subst n; cbn; lia) r1 r2 e2 eq_refl Hr1 Hr2 E1 E2).
    + apply Forall_cons in Hr2 as [Hd2 Hr2].
      apply surrogate_ranges in L2, T2.
      apply percentEncode_app_inj in He as [Hcp _];
        unfold UTF16SurrogatePairToCodePoint in *; lia.
    + destruct (percentEncode_head (UTF16SurrogatePairToCodePoint c1 d1)) as [t Ht].
      rewrite Ht in He. injection He as <- _. discriminate U2.
    + apply Forall_cons in Hr1 as [Hd1 Hr1].
      apply surrogate_ranges in L1, T1.
      apply percentEncode_app_inj in He as [Hcp _];
        unfold UTF16SurrogatePairToCodePoint in *; lia.
    + apply Forall_cons in Hr1 as [Hd1 Hr1]. apply Forall_cons in Hr2 as [Hd2 Hr2].
      apply surrogate_ranges in L1, T1, L2, T2.
      apply percentEncode_app_inj in He as [Hcp ->];
        [|unfold UTF16SurrogatePairToCodePoint; lia..].
      unfold UTF16SurrogatePairToCodePoint in Hcp.
      assert (c1 = c2 /\ d1 = d2) as [-> ->] by lia. do 2 f_equal.
      apply (IH (length r1') ltac:(subst n; cbn; lia) r1' r2' e2 eq_refl Hr1 Hr2 E1 E2).
Qed.

End PercentEncoding.

Lemma hexDigit_unescaped (a : N) : (a < 16)%N -> uriUnescaped (hexDigit a) = true.
Proof.
  intros Ha.
  apply (N_forall_below 16 (fun a => uriUnescaped (hexDigit a))); [|exact Ha].
  vm_compute. reflexivity.
Qed.

Lemma percentEncode_alphabet (cp : N) :
  (cp < 1114112)%N ->
  Forall (fun c => uriUnescaped c = true \/ c = 37%N) (percentEncode cp).
Proof.
  intros Hcp. unfold percentEncode.
  induction (utf8_octets_bound cp Hcp) as [|o l Ho _ IH]; [constructor|].
  cbn [fmap list_fmap concat]. apply Forall_app. split; [|exact IH].
  unfold percentOctet.
  apply Forall_cons_2; [by right|].
  apply Forall_cons_2; [left; apply hexDigit_unescaped; by apply N.Div0.div_lt_upper_bound|].
  apply Forall_cons_2; [left; apply hexDigit_unescaped; by apply N.mod_lt|].
  apply Forall_nil_2.
Qed.

Lemma Encode_alphabet (s e : jsstring) :
  sixteen_bit s -> Encode s = Some e ->
  Forall (fun c => uriUnescaped c = true \/ c = 37%N) e.
Proof.
  remember (length s) as n eqn:Hn. revert s e Hn.
  induction n as [n IH] using lt_wf_ind. intros s e Hn Hs He.
  destruct s as [|c r]; [injection He as <-; constructor|].
  apply Forall_cons in Hs as [Hc Hr].
  apply Encode_cons_inv in He.
  destruct He as [(U & e' & -> & E) | [(U & L & e' & -> & E) |
                  (U & d & r' & e' & -> & L & T & -> & E)]].
  - constructor; [by left|].
    apply (IH (length r) ltac:(subst n; cbn; lia) r e' eq_refl Hr E).
  - apply Forall_app. split; [apply percentEncode_alphabet; lia|].
    apply (IH (length r) ltac:(subst n; cbn; lia) r e' eq_refl Hr E).
  - apply Forall_cons in Hr as [Hd Hr]. apply surrogate_ranges in L, T.
    apply Forall_app. split.
    + apply percentEncode_alphabet. unfold UTF16SurrogatePairToCodePoint. lia.
    + apply (IH (length r') ltac:(subst n; cbn; lia) r' e' eq_refl Hr E).
Qed.

(** X23. Distinct keys never share a public URL: for keys that are
    JavaScript strings (sixteen-bit code units), when [getPublicUrl] of a
    client returns the same URL for two keys of one bucket, the keys are
    equal. *)
Theorem public_url_injective {Num} (config : Config Num) (b k1 k2 u : jsstring) :
  sixteen_bit k1 -> sixteen_bit k2 ->
  (S3_getPublicUrl config b k1 = Normal u -> S3_getPublicUrl config b k2 = Normal u ->
   k1 = k2) /\
  (GCS_getPublicUrl b k1 = Normal u -> GCS_getPublicUrl b k2 = Normal u -> k1 = k2).
Proof.
  intros Hk1 Hk2. unfold S3_getPublicUrl, GCS_getPublicUrl, encodeURIComponent.
  destruct (Encode k1) as [e1|] eqn:E1; destruct (Encode k2) as [e2|] eqn:E2;
    unfold_M; (split; [destruct (cfg_s3 config) as [s3c|]|]); try discriminate;
    intros H1 H2; rewrite <- H2 in H1; apply Normal_inj in H1.
  - do 5 apply app_inv_head in H1. subst e2. exact (Encode_inj _ _ _ Hk1 Hk2 E1 E2).
  - do 3 apply app_inv_head in H1. subst e2. exact (Encode_inj _ _ _ Hk1 Hk2 E1 E2).
Qed.

Lemma public_url_injective_witness :
  GCS_getPublicUrl (js "b") (js "a b") <> GCS_getPublicUrl (js "b") (js "a%20b").
Proof.
  intros Heq.
  assert (H : js "a b" = js "a%20b"); [|discriminate H].
  apply (proj2 (public_url_injective s3_config (js "b") (js "a b") (js "a%20b")
                  (js "https://storage.googleapis.com/b/a%20b")
                  ltac:(repeat constructor) ltac:(repeat constructor))).
  - reflexivity.
  - rewrite <- Heq. reflexivity.
Defined.

(** X24. The key part of a public URL is URL-safe: for a key that is a
    JavaScript string, a URL returned by [getPublicUrl] is the client's
    prefix and bucket followed by a string of ASCII letters, digits, the
    marks [-_.!~*'()] and percent signs only, so no slash, question mark,
    hash or space of the key survives in it. *)
Theorem public_url_key_part_safe {Num} (config : Config Num) (b k u : jsstring) :
  sixteen_bit k ->
  (S3_getPublicUrl config b k = Normal u ->
   exists s3c enc,
     cfg_s3 config = Some s3c /\
     u = js "https://s3-" ++ region s3c ++ js ".amazonaws.com/" ++ b ++ js "/" ++ enc /\
     Forall (fun c => uriUnescaped c = true \/ c = 37%N) enc) /\
  (GCS_getPublicUrl b k = Normal u ->
   exists enc,
     u = js "https://storage.googleapis.com/" ++ b ++ js "/" ++ enc /\
     Forall (fun c => uriUnescaped c = true \/ c = 37%N) enc).
Proof.
  intros Hk. unfold S3_getPublicUrl, GCS_getPublicUrl, encodeURIComponent.
  destruct (Encode k) as [enc|] eqn:E; unfold_M;
    (split; [destruct (cfg_s3 config) as [s3c|]|]); try discriminate;
    intros H; apply Normal_inj in H; subst u.
  - exists s3c, enc. repeat split. exact (Encode_alphabet _ _ Hk E).
  - exists enc. split; [done|]. exact (Encode_alphabet _ _ Hk E).
Qed.

Lemma public_url_key_part_safe_witness :
  exists enc,
    GCS_getPublicUrl (js "b") (js "dir/a b?.js") =
      Normal (js "https://storage.googleapis.com/b/" ++ enc) /\
    (47%N ∉ enc) /\ (63%N ∉ enc) /\ (32%N ∉ enc).
Proof.
  destruct (proj2 (public_url_key_part_safe s3_config (js "b") (js "dir/a b?.js")
                     (js "https://storage.googleapis.com/b/dir%2Fa%20b%3F.js")
                     ltac:(repeat constructor)) eq_refl) as (enc & Hu & Hsafe).
  change (js "https://storage.googleapis.com/b/dir%2Fa%20b%3F.js")
    with (js "https://storage.googleapis.com/" ++ js "b" ++ js "/" ++ js "dir%2Fa%20b%3F.js")
    in Hu.
  do 3 apply app_inv_head in Hu. subst enc.
  exists (js "dir%2Fa%20b%3F.js"). split; [reflexivity|].
  rewrite Forall_forall in Hsafe.
  repeat split; intros Hin; destruct (Hsafe _ Hin) as [H | H]; discriminate H.
Defined.

(** * The cache on the two clients *)





Lemma storage_module_loaded_witness :
  exists m w',
    storage_module s3_config memory_S3 memory_GCS (empty_world ∅) = (Normal m, w') /\
    storageClient m = S3StorageClient s3_config memory_S3 /\
    artifactsBucket m = js "artifacts" /\ importsBucket m = js "imports".
Proof.
  destruct (storage_module_loaded (fun _ => 3012) (fun a b => a ++ js "/" ++ b) s3_process
              s3_config memory_S3 memory_GCS (empty_world ∅))
    as (m & l & Hrun & _ & _ & Hs3).
  - vm_compute. reflexivity.
  - destruct (Hs3 eq_refl) as (Hclient & s & Hs & Ha & Hi).
    injection Hs as <-. eexists _, _. split; [exact Hrun|]. by repeat split.
Defined.
